(** * kapacitor command-line client: request construction and response handling

    A shallow embedding of [cmd/kapacitor/main.go].  Every handler [doX] of
    the Go file is a function of the same name here.  The handlers talk to
    three things outside the program: the HTTP transport, the file system and
    the process' standard streams.  The first two are an explicit environment
    ([Env]); the streams and the list of requests handed to the transport are
    an explicit state ([World]) threaded through every handler.

    The flag sets are taken after [Parse]: the values of the flag variables
    are the record [Flags].  The deferred [r.Body.Close()] calls are not part
    of the state; no statement below observes them. *)

From Stdlib Require Import String Ascii List ZArith NArith Bool Lia DecimalString.
Import ListNotations.
Open Scope string_scope.

(** ** Go library functions used by the handlers *)

Module strconv.

(** [strconv.FormatInt(i, 10)]. *)
Definition FormatInt (i : Z) : string := NilZero.string_of_int (Z.to_int i).

End strconv.

(** Go's conversion [int64(x)]: wrap-around to 64 bits, two's complement. *)
Definition int64 (x : Z) : Z := ((x + 2 ^ 63) mod 2 ^ 64 - 2 ^ 63)%Z.

Module strings.

(** [strings.Join(a, sep)]. *)
Fixpoint Join (a : list string) (sep : string) : string :=
  match a with
  | [] => ""
  | [x] => x
  | x :: rest => x ++ sep ++ Join rest sep
  end.

End strings.

Module url.

(** The byte tests of [net/url.shouldEscape] in the query-component mode. *)
Definition between (lo hi c : ascii) : bool :=
  (N_of_ascii lo <=? N_of_ascii c)%N && (N_of_ascii c <=? N_of_ascii hi)%N.

Definition isMark (c : ascii) : bool :=
  Ascii.eqb c "-" || Ascii.eqb c "_" || Ascii.eqb c "." || Ascii.eqb c "~".

Definition shouldEscape (c : ascii) : bool :=
  if between "A" "Z" c || between "a" "z" c || between "0" "9" c then false
  else if isMark c then false
  else true.

Definition upperhex : string := "0123456789ABCDEF".

Definition hexdigit (n : N) : ascii :=
  match String.get (N.to_nat n) upperhex with
  | Some d => d
  | None => "0"%char
  end.

(** [url.QueryEscape]: a space becomes [+], every other byte that must be
    escaped becomes [%XY] with upper-case hexadecimal digits. *)
Fixpoint QueryEscape (s : string) : string :=
  match s with
  | EmptyString => EmptyString
  | String c rest =>
      if Ascii.eqb c " " then String "+" (QueryEscape rest)
      else if shouldEscape c then
        String "%" (String (hexdigit (N.shiftr (N_of_ascii c) 4))
                   (String (hexdigit (N.land (N_of_ascii c) 15))
                           (QueryEscape rest)))
      else String c (QueryEscape rest)
  end.

(** [url.Values] is [map[string][]string].  The map is an association list
    with one entry per key; its order is irrelevant because [Encode] sorts
    the keys. *)
Definition Values := list (string * list string).

Definition empty : Values := [].

(** [v.Add(key, value)]: append [value] to the values stored under [key]. *)
Fixpoint Add (key value : string) (v : Values) : Values :=
  match v with
  | [] => [(key, [value])]
  | (k, vs) :: rest =>
      if String.eqb k key then (k, (vs ++ [value])%list) :: rest
      else (k, vs) :: Add key value rest
  end.

(** [v[key]]: the values under [key], [nil] when the key is absent. *)
Fixpoint Get (key : string) (v : Values) : list string :=
  match v with
  | [] => []
  | (k, vs) :: rest => if String.eqb k key then vs else Get key rest
  end.

Definition Keys (v : Values) : list string := map fst v.

(** [sort.Strings] on the keys: insertion sort with Go's byte-wise [<]. *)
Fixpoint insertKey (e : string * list string) (v : Values) : Values :=
  match v with
  | [] => [e]
  | e' :: rest =>
      if String.leb (fst e) (fst e') then e :: e' :: rest
      else e' :: insertKey e rest
  end.

Fixpoint sortKeys (v : Values) : Values :=
  match v with
  | [] => []
  | e :: rest => insertKey e (sortKeys rest)
  end.

(** The [key=value] pairs in the order [Encode] writes them. *)
Definition pairs (v : Values) : list (string * string) :=
  flat_map (fun e => map (fun x => (fst e, x)) (snd e)) (sortKeys v).

Definition encodePair (p : string * string) : string :=
  QueryEscape (fst p) ++ "=" ++ QueryEscape (snd p).

(** [v.Encode()]: ["bar=baz&foo=quux"], sorted by key. *)
Definition Encode (v : Values) : string :=
  strings.Join (map encodePair (pairs v)) "&".

(** The part of [url.Parse] the handlers' URLs exercise: the query starts
    after the first [?]; what precedes it is scheme, authority and path. *)
Fixpoint cut (sep : ascii) (s : string) : string * option string :=
  match s with
  | EmptyString => (EmptyString, None)
  | String c rest =>
      if Ascii.eqb c sep then (EmptyString, Some rest)
      else let (a, b) := cut sep rest in (String c a, b)
  end.

Definition RawQuery (rawurl : string) : string :=
  match snd (cut "?" rawurl) with
  | Some q => q
  | None => ""
  end.

Definition hasQuery (rawurl : string) : bool :=
  match snd (cut "?" rawurl) with
  | Some _ => true
  | None => false
  end.

(** Drop [scheme://authority] from the front of what precedes the query. *)
Fixpoint fromSlash (s : string) : string :=
  match s with
  | EmptyString => EmptyString
  | String c rest => if Ascii.eqb c "/" then s else fromSlash rest
  end.

Fixpoint afterScheme (s : string) : option string :=
  match s with
  | String ":" (String "/" (String "/" rest)) => Some rest
  | String _ rest => afterScheme rest
  | EmptyString => None
  end.

(** [URL.EscapedPath] of the parsed URL: the path as it is written in the
    raw URL, with its escapes left as they are ([URL.Path] is this text
    decoded). *)
Definition EscapedPath (rawurl : string) : string :=
  let front := fst (cut "?" rawurl) in
  match afterScheme front with
  | Some rest => fromSlash rest
  | None => front
  end.

(** [url.getScheme]: the scheme is what precedes the first [:], provided
    it starts with a letter and goes on with letters, digits, [+], [-] and
    [.]; otherwise the URL has no scheme. *)
Fixpoint scanScheme (atStart : bool) (s : string) : option string :=
  match s with
  | EmptyString => None
  | String c rest =>
      if between "a" "z" c || between "A" "Z" c then
        option_map (String c) (scanScheme false rest)
      else if between "0" "9" c || Ascii.eqb c "+" || Ascii.eqb c "-" || Ascii.eqb c "." then
        if atStart then None else option_map (String c) (scanScheme false rest)
      else if Ascii.eqb c ":" then
        if atStart then None else Some EmptyString
      else None
  end.

Definition getScheme (rawurl : string) : string :=
  match scanScheme true rawurl with
  | Some scheme => scheme
  | None => ""
  end.

(** *** Reading a query string

    What the service does with the query string it receives
    ([url.ParseQuery]): split at [&], split each piece at its first [=],
    undo the escaping of both sides.  The pairs are kept in the order of
    the string. *)

Definition unhex (c : ascii) : option N :=
  if between "0" "9" c then Some (N_of_ascii c - 48)%N
  else if between "a" "f" c then Some (N_of_ascii c - 97 + 10)%N
  else if between "A" "F" c then Some (N_of_ascii c - 65 + 10)%N
  else None.

(** [url.QueryUnescape] *)
Fixpoint QueryUnescape (s : string) : option string :=
  match s with
  | EmptyString => Some EmptyString
  | String c rest =>
      if Ascii.eqb c "%" then
        match rest with
        | String a (String b rest') =>
            match unhex a, unhex b, QueryUnescape rest' with
            | Some x, Some y, Some t => Some (String (ascii_of_N (16 * x + y)) t)
            | _, _, _ => None
            end
        | _ => None
        end
      else if Ascii.eqb c "+" then option_map (String " ") (QueryUnescape rest)
      else option_map (String c) (QueryUnescape rest)
  end.

(** [strings.Split(s, sep)] for a one-byte separator. *)
Fixpoint Split (sep : ascii) (s : string) : list string :=
  match s with
  | EmptyString => [EmptyString]
  | String c rest =>
      if Ascii.eqb c sep then EmptyString :: Split sep rest
      else match Split sep rest with
           | [] => [String c EmptyString]
           | x :: xs => String c x :: xs
           end
  end.

Fixpoint parsePieces (pieces : list string) : option (list (string * string)) :=
  match pieces with
  | [] => Some []
  | piece :: rest =>
      if String.eqb piece "" then parsePieces rest
      else
        let (key, value) := cut "=" piece in
        match QueryUnescape key,
              QueryUnescape (match value with Some x => x | None => "" end),
              parsePieces rest with
        | Some k, Some x, Some m => Some ((k, x) :: m)
        | _, _, _ => None
        end
  end.

Definition ParseQuery (query : string) : option (list (string * string)) :=
  parsePieces (Split "&" query).

(** Bytes [QueryEscape] can write. *)
Definition escapedByte (c : ascii) : bool :=
  negb (shouldEscape c) || Ascii.eqb c "+" || Ascii.eqb c "%".

Definition differs (sep c : ascii) : bool := negb (Ascii.eqb c sep).

Fixpoint allBytes (p : ascii -> bool) (s : string) : bool :=
  match s with
  | EmptyString => true
  | String c rest => p c && allBytes p rest
  end.

End url.

(** ** Formatting ([fmt]) *)

Definition nl : string := String (ascii_of_nat 10) EmptyString.
Definition tab : string := String (ascii_of_nat 9) EmptyString.
Definition dq : string := String (ascii_of_nat 34) EmptyString.

Module fmt.

(** [utf8.RuneCountInString] on valid UTF-8: every byte that is not a
    continuation byte [10xxxxxx] starts a rune.  [fmt] pads to a width
    counted in runes. *)
Definition isContinuation (c : ascii) : bool :=
  (N.land (N_of_ascii c) 192 =? 128)%N.

Fixpoint RuneCount (s : string) : nat :=
  match s with
  | EmptyString => 0
  | String c rest => if isContinuation c then RuneCount rest else S (RuneCount rest)
  end.

Fixpoint spaces (n : nat) : string :=
  match n with
  | O => EmptyString
  | S k => String " " (spaces k)
  end.

(** The verb [%-Ns]: the operand, then spaces up to width [N]. *)
Definition padRight (width : nat) (s : string) : string :=
  s ++ spaces (width - RuneCount s).

(** The verb [%Ns]: spaces up to width [N], then the operand. *)
Definition padLeft (width : nat) (s : string) : string :=
  spaces (width - RuneCount s) ++ s.

(** [%v] of a [bool]. *)
Definition Bool (b : bool) : string := if b then "true" else "false".

(** [fmt.Sprintln] of a [[]string]: the elements between brackets. *)
Definition SprintlnSlice (a : list string) : string :=
  "[" ++ strings.Join a " " ++ "]" ++ nl.

End fmt.

(** ** Usage texts *)

Definition usageStr : string :=
  nl ++
  "Usage: kapacitor [command] [args]" ++ nl ++
  nl ++
  "Commands:" ++ nl ++
  nl ++
  tab ++ "record   record the result of a query or a snapshot of the current stream data." ++ nl ++
  tab ++ "define   create/update a task." ++ nl ++
  tab ++ "replay   replay a recording to a task." ++ nl ++
  tab ++ "enable   enable and start running a task with live data." ++ nl ++
  tab ++ "disable  stop running a task." ++ nl ++
  tab ++ "push     publish a task definition to another Kapacitor instance." ++ nl ++
  tab ++ "delete   delete a task or a recording." ++ nl ++
  tab ++ "list     list information about tasks or recordings." ++ nl ++
  tab ++ "help     get help for a command." ++ nl ++
  tab ++ "level    sets the logging level on the kapacitord server." ++ nl ++
  tab ++ "version  displays the Kapacitor version info." ++ nl.

Definition helpUsage_u : string :=
  "Usage: kapacitor help [command]" ++ nl.

Definition recordUsage_u : string :=
  "Usage: kapacitor record [batch|stream|query] [options]" ++ nl ++
  nl ++
  tab ++ "Record the result of a InfluxDB query or a snapshot of the live data stream." ++ nl ++
  nl ++
  tab ++ "Prints the recording ID on exit." ++ nl ++
  nl ++
  tab ++ "Recordings have types like tasks. If recording a raw query you must specify the desired type." ++ nl ++
  nl ++
  tab ++ "See 'kapacitor help replay' for how to replay a recording." ++ nl ++
  nl ++
  "Examples:" ++ nl ++
  nl ++
  tab ++ "$ kapacitor record stream -duration 1m" ++ nl ++
  nl ++
  tab ++ tab ++ "This records the live data stream for 1 minute." ++ nl ++
  tab ++ nl ++
  tab ++ "$ kapacitor record batch -addr 'http://localhost:8086' -name cpu_idle -start 2015-09-01T00:00:00Z -num 10" ++ nl ++
  tab ++ tab ++ nl ++
  tab ++ tab ++ "This records the result of the query defined in task 'cpu_idle' and runs the query 10 times" ++ nl ++
  tab ++ tab ++ "starting at time 'start' and incrementing by the period defined in the task." ++ nl ++
  nl ++
  tab ++ "$ kapacitor record query -addr 'http://localhost:8086' -query " ++ dq ++ "select value from cpu_idle where time > now() - 1h and time < now()" ++ dq ++ " -type streamer" ++ nl ++
  nl ++
  tab ++ tab ++ "This records the result of the query and stores it as a stream recording. Use -type batcher to store as batch recording." ++ nl ++
  nl ++
  "Options:" ++ nl.

Definition defineUsage_u : string :=
  "Usage: kapacitor define [options]" ++ nl ++
  nl ++
  "Create or update a task." ++ nl ++
  nl ++
  "A task is defined via a TICK script that defines the data processing pipeline of the task." ++ nl ++
  nl ++
  "Options:" ++ nl.

Definition replayUsage_u : string :=
  "Usage: kapacitor replay [options]" ++ nl ++
  nl ++
  "Replay a recording to a task. Waits until the task finishes." ++ nl ++
  nl ++
  "See 'kapacitor help record' for how to create a replay." ++ nl ++
  "See 'kapacitor help define' for how to create a task." ++ nl ++
  nl ++
  "Options:" ++ nl.

Definition enableUsage_u : string :=
  "Usage: kapacitor enable [task name...]" ++ nl ++
  nl ++
  tab ++ "Enable and start a task running from the live data." ++ nl.

Definition disableUsage_u : string :=
  "Usage: kapacitor disable [task name...]" ++ nl ++
  nl ++
  tab ++ "Disable and stop a task running." ++ nl.

Definition listUsage_u : string :=
  "Usage: kapacitor list (tasks|recordings) [task name|recording ID]..." ++ nl ++
  nl ++
  "List tasks or recordings and their current state." ++ nl ++
  nl ++
  "If no tasks are given then all tasks are listed. Same for recordings." ++ nl ++
  "If a set of task names or recordings IDs is provided only those entries will be listed." ++ nl.

Definition deleteUsage_u : string :=
  "Usage: kapacitor delete (task|recording) [task name|recording ID]..." ++ nl ++
  nl ++
  tab ++ "Delete a task or recording." ++ nl ++
  tab ++ nl ++
  tab ++ "If a task is enabled it will be disabled and then deleted." ++ nl.

Definition levelUsage_u : string :=
  "Usage: kapacitor level (debug|info|warn|error)" ++ nl ++
  nl ++
  tab ++ "Sets the logging level on the kapacitord server." ++ nl.

Definition versionUsage_u : string :=
  "Usage: kapacitor version" ++ nl ++
  nl ++
  tab ++ "Print version info." ++ nl.

(** ** Data model *)

(** Modelled from the spec: [kapacitor.TaskType] is declared in the package
    [github.com/influxdb/kapacitor], outside this file.  The spec gives it as
    a closed enumeration of two values. *)
Inductive TaskType : Type := streamer | batcher.

(** The anonymous element structs of the two list responses. *)
Record TaskEntry : Type := { Name : string; TType : TaskType; Enabled : bool }.
Record RecordingEntry : Type := { ID : string; RType : TaskType; Size : Z }.

(** Go [error] values the handlers return. *)
Inductive error : Type :=
| errors_New (text : string)
| fmt_Errorf (format arg : string)
| foreign (text : string).

(** A JSON document as the decoders of this file see it: the members they
    have a field for.  [None] is a member that is absent or [null]; the
    decoder leaves the corresponding field as it was. *)
Record Document : Type := {
  Error : option string;
  RecordingID : option string;
  Tasks : option (list TaskEntry);
  Recordings : option (list RecordingEntry)
}.

(** A response body as [json.Decoder.Decode] meets it: either the decoder
    finds a syntax error before it has read one complete JSON value, or it
    reads a value, the document. *)
Inductive Body : Type :=
| NotJSON (raw : string)
| JSON (doc : Document).

Inductive HTTPResult : Type :=
| TransportError (err : error)
| Response (body : Body).

Record Request : Type := {
  Method : string;
  URL : string;
  ContentType : string;
  Payload : option string
}.

(** What is written to the diagnostic stream: text of [fmt.Fprintln], a line
    of the logger [l] (prefix and time stamp left out), the option table
    printed by a flag set's [PrintDefaults], or [fmt.Fprintln] of an
    [error]. *)
Inductive Diag : Type :=
| Text (s : string)
| Logged (s : string)
| Defaults (flagset : string)
| Failure (err : error).

(** The state a handler changes: the requests handed to the transport so
    far, and the two output streams. *)
Record World : Type := {
  requests : list Request;
  stdout : string;
  stderr : list Diag
}.

(** How a handler ends: it returns an [error] ([None] is [nil]), ends the
    process through [os.Exit], or indexes a slice out of range. *)
Inductive Outcome : Type :=
| Return (err : option error)
| Exit (code : Z)
| Panic.

(** Everything outside this file a handler depends on. *)
Record Env : Type := {
  (** the transport behind [http.Post], [http.Get] and [client.Do]; it sees
      the requests sent before *)
  Do : list Request -> Request -> HTTPResult;
  (** the error of [http.NewRequest(method, url, nil)], if any *)
  NewRequestError : string -> string -> option error;
  (** [os.Open]: the content of the file or the error *)
  Open : string -> string + error;
  (** variables populated by the linker *)
  version : string;
  commit : string;
  branch : string;
  (** [time.Duration.String] *)
  DurationString : Z -> string;
  (** [String] of a [kapacitor.TaskType], as the verb [%v] prints it *)
  TaskTypeString : TaskType -> string;
  (** the verb [%15.2f] applied to [float64(size)/1024.0/1024.0] *)
  FormatMB : Z -> string
}.

(** The package-level flag variables, after the flag sets were parsed. *)
Record Flags : Type := {
  raddr : string;
  rname : string;
  rstart : string;
  rnum : Z;
  rquery : string;
  rtype : string;
  rdur : Z;
  dname : string;
  dtick : string;
  dtype : string;
  rtname : string;
  rid : string;
  rfast : bool;
  (** [defineFlags.Args()] and [replayFlags.Args()] *)
  defineArgs : list string;
  replayArgs : list string
}.

(** *** Response structs and [json.Decoder.Decode] *)

(** The [resp] struct of doDefine, doReplay, doEnable, doDisable, doDelete
    and doLevel. *)
Record resp : Type := { resp_Error : string }.

(** The [resp] struct of doRecord. *)
Record respRecord : Type := {
  respRecord_RecordingID : string;
  respRecord_Error : string
}.

(** The [resp] structs of doList. *)
Record respTasks : Type := {
  respTasks_Error : string;
  respTasks_Tasks : list TaskEntry
}.

Record respRecordings : Type := {
  respRecordings_Error : string;
  respRecordings_Recordings : list RecordingEntry
}.

Definition orKeep {A : Type} (member : option A) (field : A) : A :=
  match member with
  | Some x => x
  | None => field
  end.

(** A struct a body can be decoded into: its zero value, how a document is
    stored into it, and its [Error] field. *)
Class Decodable (A : Type) : Type := {
  zero : A;
  store : Document -> A -> A;
  ErrorOf : A -> string
}.

#[export] Instance Decodable_resp : Decodable resp := {
  zero := {| resp_Error := "" |};
  store doc rp := {| resp_Error := orKeep (Error doc) (resp_Error rp) |};
  ErrorOf := resp_Error
}.

#[export] Instance Decodable_respRecord : Decodable respRecord := {
  zero := {| respRecord_RecordingID := ""; respRecord_Error := "" |};
  store doc rp :=
    {| respRecord_RecordingID := orKeep (RecordingID doc) (respRecord_RecordingID rp);
       respRecord_Error := orKeep (Error doc) (respRecord_Error rp) |};
  ErrorOf := respRecord_Error
}.

#[export] Instance Decodable_respTasks : Decodable respTasks := {
  zero := {| respTasks_Error := ""; respTasks_Tasks := [] |};
  store doc rp :=
    {| respTasks_Error := orKeep (Error doc) (respTasks_Error rp);
       respTasks_Tasks := orKeep (Tasks doc) (respTasks_Tasks rp) |};
  ErrorOf := respTasks_Error
}.

#[export] Instance Decodable_respRecordings : Decodable respRecordings := {
  zero := {| respRecordings_Error := ""; respRecordings_Recordings := [] |};
  store doc rp :=
    {| respRecordings_Error := orKeep (Error doc) (respRecordings_Error rp);
       respRecordings_Recordings := orKeep (Recordings doc) (respRecordings_Recordings rp) |};
  ErrorOf := respRecordings_Error
}.

(** [d.Decode(&rp)]: the struct after the call and the error of the call.
    On a body that is not JSON nothing is stored.  A member of the wrong
    type is skipped like an absent one; the error [Decode] reports for it is
    dropped by the handlers with the other. *)
Definition Decode {A : Type} `{Decodable A} (body : Body) (rp : A) : A * option error :=
  match body with
  | NotJSON _ => (rp, Some (foreign "invalid character looking for beginning of value"))
  | JSON doc => (store doc rp, None)
  end.

(** *** Writing *)

Definition sent (req : Request) (w : World) : World :=
  {| requests := requests w ++ [req]; stdout := stdout w; stderr := stderr w |}.

Definition toStdout (s : string) (w : World) : World :=
  {| requests := requests w; stdout := stdout w ++ s; stderr := stderr w |}.

Definition toStderr (d : Diag) (w : World) : World :=
  {| requests := requests w; stdout := stdout w; stderr := stderr w ++ [d] |}.

(** [fmt.Println(s)] *)
Definition Println (s : string) : World -> World := toStdout (s ++ nl).

(** [fmt.Fprintln(os.Stderr, s)] *)
Definition Eprintln (s : string) : World -> World := toStderr (Text (s ++ nl)).

(** ** The handlers *)

Section Handlers.

Variable env : Env.
Variable flags : Flags.

(** [http.Post(url, contentType, body)] *)
Definition Post (rawurl contentType : string) (body : option string) (w : World)
  : HTTPResult * World :=
  let req := {| Method := "POST"; URL := rawurl; ContentType := contentType;
                Payload := body |} in
  (Do env (requests w) req, sent req w).

(** [http.Get(url)] *)
Definition Get (rawurl : string) (w : World) : HTTPResult * World :=
  let req := {| Method := "GET"; URL := rawurl; ContentType := ""; Payload := None |} in
  (Do env (requests w) req, sent req w).

(** [http.NewRequest(method, url, nil)] *)
Definition NewRequest (method rawurl : string) : Request + error :=
  match NewRequestError env method rawurl with
  | Some err => inr err
  | None => inl {| Method := method; URL := rawurl; ContentType := ""; Payload := None |}
  end.

(** [client.Do(req)] *)
Definition clientDo (req : Request) (w : World) : HTTPResult * World :=
  (Do env (requests w) req, sent req w).

(** The block every handler repeats after its request:
[[
    if err != nil { return err }
    defer r.Body.Close()
    d := json.NewDecoder(r.Body); rp := resp{}; d.Decode(&rp)
    if rp.Error != "" { return errors.New(rp.Error) }
]]
    followed by the rest [k] of the handler.  The error of [Decode] is
    dropped. *)
Definition decoded {A : Type} `{Decodable A} (r : HTTPResult) (w : World)
    (k : A -> World -> Outcome * World) : Outcome * World :=
  match r with
  | TransportError err => (Return (Some err), w)
  | Response body =>
      let (rp, _) := Decode body zero in
      if negb (ErrorOf rp =? "") then (Return (Some (errors_New (ErrorOf rp))), w)
      else k rp w
  end.

(** *** Usage functions *)

Definition usage (w : World) : Outcome * World :=
  (Exit 1, Eprintln usageStr w).

Definition helpUsage : World -> World := Eprintln helpUsage_u.
Definition recordUsage (w : World) : World :=
  toStderr (Defaults "record") (Eprintln recordUsage_u w).
Definition defineUsage (w : World) : World :=
  toStderr (Defaults "define") (Eprintln defineUsage_u w).
Definition replayUsage (w : World) : World :=
  toStderr (Defaults "replay") (Eprintln replayUsage_u w).
Definition enableUsage : World -> World := Eprintln enableUsage_u.
Definition disableUsage : World -> World := Eprintln disableUsage_u.
Definition listUsage : World -> World := Eprintln listUsage_u.
Definition deleteUsage : World -> World := Eprintln deleteUsage_u.
Definition levelUsage : World -> World := Eprintln levelUsage_u.
Definition versionUsage : World -> World := Eprintln versionUsage_u.

(** *** Help *)

Definition doHelp (args : list string) (w : World) : Outcome * World :=
  match args with
  | [command] =>
      if command =? "record" then (Return None, recordUsage w)
      else if command =? "define" then (Return None, defineUsage w)
      else if command =? "replay" then (Return None, replayUsage w)
      else if command =? "enable" then (Return None, enableUsage w)
      else if command =? "disable" then (Return None, disableUsage w)
      else if command =? "delete" then (Return None, deleteUsage w)
      else if command =? "list" then (Return None, listUsage w)
      else if command =? "level" then (Return None, levelUsage w)
      else if command =? "help" then (Return None, helpUsage w)
      else if command =? "version" then (Return None, versionUsage w)
      else usage (Eprintln ("Unknown command" ++ " " ++ command) w)
  | _ => (Return None, helpUsage w)
  end.

(** *** Record *)

(** The query parameters doRecord builds for a mode, or the error for a
    mode it does not know. *)
Definition recordValues (mode : string) : url.Values + error :=
  let v := url.empty in
  let v := url.Add "type" mode v in
  if mode =? "stream" then
    let v := url.Add "duration" (DurationString env (rdur flags)) v in
    inl v
  else if mode =? "batch" then
    let v := url.Add "name" (rname flags) v in
    let v := url.Add "start" (rstart flags) v in
    let v := url.Add "num" (strconv.FormatInt (int64 (rnum flags))) v in
    let v := url.Add "addr" (raddr flags) v in
    inl v
  else if mode =? "query" then
    let v := url.Add "qtype" (rtype flags) v in
    let v := url.Add "addr" (raddr flags) v in
    inl v
  else
    inr (fmt_Errorf "Unknown record type %q, expected 'stream' or 'query'" mode).

Definition doRecord (args : list string) (w : World) : Outcome * World :=
  match args with
  | [] => (Panic, w)
  | mode :: _ =>
      match recordValues mode with
      | inr err => (Return (Some err), w)
      | inl v =>
          let (r, w) := Post ("http://localhost:9092/record?" ++ url.Encode v)
                             "application/octetstream" None w in
          decoded r w (fun (rp : respRecord) w =>
            (Return None, Println (respRecord_RecordingID rp) w))
      end
  end.

(** *** Define *)

Definition doDefine (args : list string) (w : World) : Outcome * World :=
  if (dtick flags =? "") || (dname flags =? "") || (dtick flags =? "") then
    (Exit 2, defineUsage (Eprintln "Must pass name,tick and type options." w))
  else
    match Open env (dtick flags) with
    | inr err => (Return (Some err), w)
    | inl f =>
        let v := url.empty in
        let v := url.Add "name" (dname flags) v in
        let v := url.Add "type" (dtype flags) v in
        let (r, w) := Post ("http://localhost:9092/task?" ++ url.Encode v)
                           "application/octetstream" (Some f) w in
        decoded r w (fun (_ : resp) w => (Return None, w))
    end.

(** *** Replay *)

Definition doReplay (args : list string) (w : World) : Outcome * World :=
  let v := url.empty in
  let v := url.Add "name" (rtname flags) v in
  let v := url.Add "id" (rid flags) v in
  let v := if rfast flags then url.Add "clock" "fast" v else v in
  let (r, w) := Post ("http://localhost:9092/replay?" ++ url.Encode v)
                     "application/octetstream" None w in
  decoded r w (fun (_ : resp) w => (Return None, w)).

(** *** Enable *)

(** The [for _, name := range args] loop of doEnable.  Falling out of the
    loop reaches the final [return nil]. *)
Fixpoint enableLoop (names : list string) (w : World) : Outcome * World :=
  match names with
  | [] => (Return None, w)
  | name :: rest =>
      let v := url.empty in
      let v := url.Add "name" name v in
      let (r, w) := Post ("http://localhost:9092/enable?" ++ url.Encode v)
                         "application/octetstream" None w in
      decoded r w (fun (_ : resp) w => enableLoop rest w)
  end.

Definition doEnable (args : list string) (w : World) : Outcome * World :=
  if (length args <? 1)%nat then
    (Exit 2, enableUsage (Eprintln "Must pass at least one task name" w))
  else enableLoop args w.

(** *** Disable *)

(** The loop of doDisable.  Its body ends in [return nil], so the rest of
    [args] is never visited. *)
Definition disableLoop (names : list string) (w : World) : Outcome * World :=
  match names with
  | [] => (Return None, w)
  | name :: _ =>
      let v := url.empty in
      let v := url.Add "name" name v in
      let (r, w) := Post ("http://localhost:9092/disable?" ++ url.Encode v)
                         "application/octetstream" None w in
      decoded r w (fun (_ : resp) w => (Return None, w))
  end.

Definition doDisable (args : list string) (w : World) : Outcome * World :=
  if (length args <? 1)%nat then
    (Exit 2, disableUsage (Eprintln "Must pass at least one task name" w))
  else disableLoop args w.

(** *** List *)

(** [fmt.Fprintf(os.Stdout, "%-30s%-10v%-10v\n", a, b, c)] *)
Definition taskLine (a b c : string) : string :=
  fmt.padRight 30 a ++ fmt.padRight 10 b ++ fmt.padRight 10 c ++ nl.

Definition taskRow (t : TaskEntry) : string :=
  taskLine (Name t) (TaskTypeString env (TType t)) (fmt.Bool (Enabled t)).

(** [fmt.Fprintf(os.Stdout, "%-40s%-10s%15s\n", "ID", "Type", "Size (MB)")] *)
Definition recordingHeader : string :=
  fmt.padRight 40 "ID" ++ fmt.padRight 10 "Type" ++ fmt.padLeft 15 "Size (MB)" ++ nl.

(** [fmt.Fprintf(os.Stdout, "%-40s%-10v%15.2f\n", r.ID, r.Type,
    float64(r.Size)/1024.0/1024.0)] *)
Definition recordingRow (r : RecordingEntry) : string :=
  fmt.padRight 40 (ID r) ++ fmt.padRight 10 (TaskTypeString env (RType r))
    ++ FormatMB env (Size r) ++ nl.

(** A [for ... range] loop that prints one line per element. *)
Fixpoint printRows {A : Type} (row : A -> string) (l : list A) (w : World) : World :=
  match l with
  | [] => w
  | x :: rest => printRows row rest (toStdout (row x) w)
  end.

Definition doList (args : list string) (w : World) : Outcome * World :=
  match args with
  | [] => (Exit 2, listUsage (Eprintln "Must specify 'tasks' or 'recordings'" w))
  | kind :: filter =>
      if kind =? "tasks" then
        let tasks := strings.Join filter "," in
        let v := url.empty in
        let v := url.Add "tasks" tasks v in
        let (r, w) := Get ("http://localhost:9092/tasks?" ++ url.Encode v) w in
        decoded r w (fun (rp : respTasks) w =>
          let w := toStdout (taskLine "Name" "Type" "Enabled") w in
          let w := printRows taskRow (respTasks_Tasks rp) w in
          (Return None, w))
      else if kind =? "recordings" then
        let rids := strings.Join filter "," in
        let v := url.empty in
        let v := url.Add "rids" rids v in
        let (r, w) := Get ("http://localhost:9092/recordings?" ++ url.Encode v) w in
        decoded r w (fun (rp : respRecordings) w =>
          let w := toStdout recordingHeader w in
          let w := printRows recordingRow (respRecordings_Recordings rp) w in
          (Return None, w))
      else (Return None, w)
  end.

(** *** Delete *)

(** The [for _, arg := range args[1:]] loop of doDelete. *)
Fixpoint deleteLoop (baseURL paramName : string) (ids : list string) (w : World)
  : Outcome * World :=
  match ids with
  | [] => (Return None, w)
  | arg :: rest =>
      let v := url.empty in
      let v := url.Add paramName arg v in
      match NewRequest "DELETE" (baseURL ++ url.Encode v) with
      | inr err => (Return (Some err), w)
      | inl req =>
          let (r, w) := clientDo req w in
          decoded r w (fun (_ : resp) w => deleteLoop baseURL paramName rest w)
      end
  end.

Definition doDelete (args : list string) (w : World) : Outcome * World :=
  if (length args <? 2)%nat then
    (Exit 2, enableUsage (Eprintln "Must pass at least one task name or recording ID" w))
  else
    match args with
    | [] => (Panic, w)
    | kind :: ids =>
        let '(baseURL, paramName) :=
          if kind =? "task" then ("http://localhost:9092/task", "name")
          else if kind =? "recording" then ("http://localhost:9092/recording", "rid")
          else ("", "") in
        let w := toStderr (Logged (fmt.SprintlnSlice args)) w in
        deleteLoop baseURL paramName ids w
    end.

(** *** Level *)

Definition doLevel (args : list string) (w : World) : Outcome * World :=
  match args with
  | [] => (Exit 2, levelUsage (Eprintln "Must pass a log level" w))
  | level :: _ =>
      let v := url.empty in
      let v := url.Add "level" level v in
      let (r, w) := Post ("http://localhost:9092/loglevel?" ++ url.Encode v)
                         "text/plain" None w in
      decoded r w (fun (_ : resp) w => (Return None, w))
  end.

(** *** Version *)

Definition doVersion (args : list string) (w : World) : Outcome * World :=
  (Return None,
   toStdout ("Kapacitor " ++ version env ++ " (git: " ++ branch env ++ " "
             ++ commit env ++ ")" ++ nl) w).

(** *** main *)

Inductive Subcommand : Type :=
| cmd_help | cmd_record | cmd_define | cmd_replay | cmd_enable | cmd_disable
| cmd_delete | cmd_list | cmd_level | cmd_version.

(** The handler [main] assigns to [commandF]. *)
Definition commandF (c : Subcommand) : list string -> World -> Outcome * World :=
  match c with
  | cmd_help => doHelp
  | cmd_record => doRecord
  | cmd_define => doDefine
  | cmd_replay => doReplay
  | cmd_enable => doEnable
  | cmd_disable => doDisable
  | cmd_delete => doDelete
  | cmd_list => doList
  | cmd_level => doLevel
  | cmd_version => doVersion
  end.

(** The end of [main]: a returned error is printed and the exit status is 3;
    without one [main] returns and the status is 0.  A run-time panic ends
    the process with status 2. *)
Definition finish (r : Outcome * World) : Z * World :=
  match r with
  | (Return None, w) => (0%Z, w)
  | (Return (Some err), w) => (3%Z, toStderr (Failure err) w)
  | (Exit code, w) => (code, w)
  | (Panic, w) => (2%Z, w)
  end.

(** [main], on [os.Args] without the program name. *)
Definition main (osArgs : list string) (w : World) : Z * World :=
  match osArgs with
  | [] => finish (usage (Eprintln "Error: Must pass a command." w))
  | command :: args =>
      if command =? "help" then finish (doHelp args w)
      else if command =? "record" then
        match args with
        | [] => (2%Z, recordUsage w)
        | mode :: _ => finish (doRecord [mode] w)
        end
      else if command =? "define" then finish (doDefine (defineArgs flags) w)
      else if command =? "replay" then finish (doReplay (replayArgs flags) w)
      else if command =? "enable" then finish (doEnable args w)
      else if command =? "disable" then finish (doDisable args w)
      else if command =? "delete" then finish (doDelete args w)
      else if command =? "list" then finish (doList args w)
      else if command =? "level" then finish (doLevel args w)
      else if command =? "version" then finish (doVersion args w)
      else finish (usage (Eprintln ("Unknown command" ++ " " ++ command) w))
  end.

End Handlers.

(** ** Vocabulary of the statements *)

(** What a response body says once decoded into a zero struct: the [Error]
    it reports, and its payloads. *)
Definition ErrorIn (body : Body) : string :=
  match body with
  | NotJSON _ => ""
  | JSON doc => orKeep (Error doc) ""
  end.

Definition RecordingIDIn (body : Body) : string :=
  match body with
  | NotJSON _ => ""
  | JSON doc => orKeep (RecordingID doc) ""
  end.

Definition TasksIn (body : Body) : list TaskEntry :=
  match body with
  | NotJSON _ => []
  | JSON doc => orKeep (Tasks doc) []
  end.

Definition RecordingsIn (body : Body) : list RecordingEntry :=
  match body with
  | NotJSON _ => []
  | JSON doc => orKeep (Recordings doc) []
  end.

(** The empty document [{}], a success without payload. *)
Definition emptyDocument : Document :=
  {| Error := None; RecordingID := None; Tasks := None; Recordings := None |}.

(** A document that reports only an error. *)
Definition errorDocument (e : string) : Document :=
  {| Error := Some e; RecordingID := None; Tasks := None; Recordings := None |}.

(** The requests the handlers send. *)
Definition postRequest (rawurl : string) : Request :=
  {| Method := "POST"; URL := rawurl; ContentType := "application/octetstream";
     Payload := None |}.

Definition getRequest (rawurl : string) : Request :=
  {| Method := "GET"; URL := rawurl; ContentType := ""; Payload := None |}.

Definition deleteRequest (rawurl : string) : Request :=
  {| Method := "DELETE"; URL := rawurl; ContentType := ""; Payload := None |}.

(** The URL doDelete builds for one identifier. *)
Definition deleteURL (baseURL paramName id : string) : string :=
  baseURL ++ url.QueryEscape paramName ++ "=" ++ url.QueryEscape id.

Definition enableRequest (name : string) : Request :=
  postRequest ("http://localhost:9092/enable?name=" ++ url.QueryEscape name).

Definition disableRequest (name : string) : Request :=
  postRequest ("http://localhost:9092/disable?name=" ++ url.QueryEscape name).

Definition recordRequest (v : url.Values) : Request :=
  postRequest ("http://localhost:9092/record?" ++ url.Encode v).

Definition tasksRequest (filter : list string) : Request :=
  getRequest ("http://localhost:9092/tasks?tasks=" ++ url.QueryEscape (strings.Join filter ",")).

Definition recordingsRequest (filter : list string) : Request :=
  getRequest ("http://localhost:9092/recordings?rids="
              ++ url.QueryEscape (strings.Join filter ",")).

(** Lines written one after the other. *)
Definition lines (l : list string) : string := fold_right append "" l.

(** The transport answers [req], sent in world [w], with a body that
    reports no error. *)
Definition succeeds (env : Env) (w : World) (req : Request) (body : Body) : Prop :=
  Do env (requests w) req = Response body /\ ErrorIn body = "".

(** The transport answers [req] with a body that reports the error [e]. *)
Definition fails (env : Env) (w : World) (req : Request) (e : string) : Prop :=
  exists body, Do env (requests w) req = Response body /\ ErrorIn body = e /\ e <> "".

(** A transport in which a malformed body is replaced by the document [{}]. *)
Definition asEmptySuccess (r : HTTPResult) : HTTPResult :=
  match r with
  | Response (NotJSON _) => Response (JSON emptyDocument)
  | other => other
  end.

Definition readingMalformedAsEmpty (env : Env) : Env :=
  {| Do := fun history req => asEmptySuccess (Do env history req);
     NewRequestError := NewRequestError env;
     Open := Open env;
     version := version env; commit := commit env; branch := branch env;
     DurationString := DurationString env;
     TaskTypeString := TaskTypeString env;
     FormatMB := FormatMB env |}.

(** Concrete surroundings for examples: a service given by its answers, no
    failing [NewRequest], one readable script. *)
Definition exampleEnv (service : list Request -> Request -> HTTPResult) : Env :=
  {| Do := service;
     NewRequestError := fun _ _ => None;
     Open := fun _ => inl "stream.from()";
     version := "v0.1"; commit := "abc"; branch := "master";
     DurationString := fun _ => "5m0s";
     TaskTypeString := fun t => match t with streamer => "streamer" | batcher => "batcher" end;
     FormatMB := fun _ => "           0.00" |}.

Definition alwaysOK : list Request -> Request -> HTTPResult :=
  fun _ _ => Response (JSON emptyDocument).

(** A service that answers every request with the document [doc]. *)
Definition answering (doc : Document) : list Request -> Request -> HTTPResult :=
  fun _ _ => Response (JSON doc).

Definition recordedDocument (id : string) : Document :=
  {| Error := Some ""; RecordingID := Some id; Tasks := None; Recordings := None |}.

(** A service that rejects exactly the task [bad]. *)
Definition rejecting (bad msg : string) : list Request -> Request -> HTTPResult :=
  fun _ req =>
    if URL req =? URL (enableRequest bad) then Response (JSON (errorDocument msg))
    else Response (JSON emptyDocument).

Definition exampleFlags : Flags :=
  {| raddr := "http://localhost:8086"; rname := "cpu_idle";
     rstart := "2015-09-01T00:00:00Z"; rnum := 10;
     rquery := "select value from cpu_idle"; rtype := "streamer";
     rdur := 300000000000;
     dname := "cpu_idle"; dtick := "cpu.tick"; dtype := "streamer";
     rtname := "cpu_idle"; rid := "r1"; rfast := false;
     defineArgs := []; replayArgs := [] |}.

Definition world0 : World := {| requests := []; stdout := ""; stderr := [] |}.

Definition levelRequest (level : string) : Request :=
  {| Method := "POST";
     URL := "http://localhost:9092/loglevel?level=" ++ url.QueryEscape level;
     ContentType := "text/plain"; Payload := None |}.


(** The method of the requests of a subcommand. *)
Definition methodOf (c : Subcommand) : string :=
  match c with
  | cmd_list => "GET"
  | cmd_delete => "DELETE"
  | _ => "POST"
  end.

(** How the URLs of the requests of a subcommand start. *)
Definition endpointsOf (c : Subcommand) : list string :=
  match c with
  | cmd_help | cmd_version => []
  | cmd_record => ["http://localhost:9092/record?"]
  | cmd_define => ["http://localhost:9092/task?"]
  | cmd_replay => ["http://localhost:9092/replay?"]
  | cmd_enable => ["http://localhost:9092/enable?"]
  | cmd_disable => ["http://localhost:9092/disable?"]
  | cmd_delete => ["http://localhost:9092/task"; "http://localhost:9092/recording"; "="]
  | cmd_list => ["http://localhost:9092/tasks?"; "http://localhost:9092/recordings?"]
  | cmd_level => ["http://localhost:9092/loglevel?"]
  end.

Definition wellAddressed (c : Subcommand) (req : Request) : Prop :=
  Method req = methodOf c
  /\ exists front, In front (endpointsOf c) /\ String.prefix front (URL req) = true.

(** World [w'] is [w] with some more requests sent, all of which satisfy
    [P]. *)
Definition extends (P : Request -> Prop) (w w' : World) : Prop :=
  exists l, requests w' = (requests w ++ l)%list /\ Forall P l.

(** The names [help] has a usage text for. *)
Definition helpTopics : list string :=
  ["record"; "define"; "replay"; "enable"; "disable"; "delete"; "list"; "level";
   "help"; "version"].

(** A transport on which every request fails with [err]. *)
Definition unreachable (err : error) : list Request -> Request -> HTTPResult :=
  fun _ _ => TransportError err.

(** The HTTP client does not send a request whose URL has no scheme: it
    fails it with an error ("unsupported protocol scheme"). *)
Definition refusesSchemeless (env : Env) : Prop :=
  forall history req,
    url.getScheme (URL req) = "" -> exists err, Do env history req = TransportError err.

(** A service seen through such a client. *)
Definition throughClient (service : list Request -> Request -> HTTPResult)
  : list Request -> Request -> HTTPResult :=
  fun history req =>
    if url.getScheme (URL req) =? "" then TransportError (foreign "unsupported protocol scheme")
    else service history req.


(** Case analysis on the 256 values of a byte. *)
Ltac each_byte c := destruct c as [[] [] [] [] [] [] [] []].

(** ** Properties *)

Lemma append_nil_r (s : string) : s ++ "" = s.
Proof. induction s as [| c s IH]; cbn; [| rewrite IH]; reflexivity. Qed.

Lemma append_assoc (a b c : string) : (a ++ b) ++ c = a ++ (b ++ c).
Proof. induction a as [| x a IH]; cbn; [| rewrite IH]; reflexivity. Qed.

Lemma Encode_single (k x : string) :
  url.Encode (url.Add k x url.empty) = url.QueryEscape k ++ "=" ++ url.QueryEscape x.
Proof. reflexivity. Qed.

Example FormatInt_10 : strconv.FormatInt 10 = "10". Proof. reflexivity. Qed.
Example FormatInt_0 : strconv.FormatInt 0 = "0". Proof. reflexivity. Qed.
Example FormatInt_neg : strconv.FormatInt (-42) = "-42". Proof. reflexivity. Qed.
Example QueryEscape_ex :
  url.QueryEscape "a b&c=d/~?" = "a+b%26c%3Dd%2F~%3F".
Proof. reflexivity. Qed.
Example Encode_ex :
  url.Encode (url.Add "name" "x y" (url.Add "type" "batch" (url.Add "addr" "h" url.empty)))
  = "addr=h&name=x+y&type=batch".
Proof. reflexivity. Qed.
Example EscapedPath_ex : url.EscapedPath "http://localhost:9092/task?name=a" = "/task".
Proof. reflexivity. Qed.

(** *** Disable *)

(** C1, evaluated on the code: whatever the service answers, doDisable
    sends one request, for the first name, and none for the names after
    it. *)
Theorem doDisable_sends_first_name_only (env : Env) (name : string)
    (rest : list string) (w : World) :
  requests (snd (doDisable env (name :: rest) w))
  = (requests w ++ [disableRequest name])%list.
Proof.
  unfold doDisable, disableLoop, Post, decoded. cbn [length Nat.ltb Nat.leb].
  rewrite Encode_single. cbn [url.QueryEscape].
  destruct (Do env _ _) as [err | body]; [reflexivity |].
  destruct (Decode body zero) as [rp ?].
  destruct (negb _); reflexivity.
Qed.

Example disable_a_b :
  doDisable (exampleEnv alwaysOK) ["a"; "b"] world0
  = (Return None,
     {| requests := [disableRequest "a"]; stdout := ""; stderr := [] |}).
Proof. reflexivity. Qed.

Example enable_a_b :
  doEnable (exampleEnv alwaysOK) ["a"; "b"] world0
  = (Return None,
     {| requests := [enableRequest "a"; enableRequest "b"]; stdout := ""; stderr := [] |}).
Proof. reflexivity. Qed.

(** *** Decoding *)

Lemma ErrorOf_Decode_resp (body : Body) :
  ErrorOf (fst (Decode body (zero : resp))) = ErrorIn body.
Proof. destruct body as [raw | doc]; reflexivity. Qed.

Lemma ErrorOf_Decode_respRecord (body : Body) :
  ErrorOf (fst (Decode body (zero : respRecord))) = ErrorIn body.
Proof. destruct body as [raw | doc]; reflexivity. Qed.

Lemma ErrorOf_Decode_respTasks (body : Body) :
  ErrorOf (fst (Decode body (zero : respTasks))) = ErrorIn body.
Proof. destruct body as [raw | doc]; reflexivity. Qed.

Lemma ErrorOf_Decode_respRecordings (body : Body) :
  ErrorOf (fst (Decode body (zero : respRecordings))) = ErrorIn body.
Proof. destruct body as [raw | doc]; reflexivity. Qed.

(** The repeated block, when the transport delivered a body. *)
Lemma decoded_Response {A : Type} `{Decodable A} (body : Body) (w : World)
    (k : A -> World -> Outcome * World) :
  decoded (Response body) w k
  = if negb (ErrorOf (fst (Decode body (zero : A))) =? "")
    then (Return (Some (errors_New (ErrorOf (fst (Decode body (zero : A)))))), w)
    else k (fst (Decode body zero)) w.
Proof. unfold decoded. destruct (Decode body zero) as [rp e]. reflexivity. Qed.

Lemma decoded_ok {A : Type} `{Decodable A} (body : Body) (w : World)
    (k : A -> World -> Outcome * World) :
  ErrorOf (fst (Decode body (zero : A))) = "" ->
  decoded (Response body) w k = k (fst (Decode body zero)) w.
Proof. intros E. rewrite decoded_Response, E. reflexivity. Qed.

Lemma decoded_error {A : Type} `{Decodable A} (body : Body) (w : World)
    (k : A -> World -> Outcome * World) (e : string) :
  ErrorOf (fst (Decode body (zero : A))) = e -> e <> "" ->
  decoded (Response body) w k = (Return (Some (errors_New e)), w).
Proof.
  intros E Ne. rewrite decoded_Response, E.
  destruct (String.eqb_spec e ""); [contradiction | reflexivity].
Qed.

(** *** Enable *)

Lemma enableLoop_cons (env : Env) (name : string) (rest : list string) (w : World) :
  enableLoop env (name :: rest) w
  = decoded (Do env (requests w) (enableRequest name)) (sent (enableRequest name) w)
      (fun (_ : resp) w' => enableLoop env rest w').
Proof. reflexivity. Qed.


(** C5: with names [a], [b], [c], a success for [a] and a reported error
    for [b], doEnable sends the request for [a], then the request for [b],
    nothing for [c], and returns the error reported for [b]. *)
Theorem doEnable_stops_at_second_name (env : Env) (a b c e : string) (w : World)
    (Ha : exists body, succeeds env w (enableRequest a) body)
    (Hb : fails env (sent (enableRequest a) w) (enableRequest b) e) :
  doEnable env [a; b; c] w
  = (Return (Some (errors_New e)),
     {| requests := (requests w ++ [enableRequest a; enableRequest b])%list;
        stdout := stdout w; stderr := stderr w |}).
Proof.
  destruct Ha as [ba [Da Ea]]. destruct Hb as [bb [Db [Eb Ne]]].
  unfold doEnable. cbn [length Nat.ltb Nat.leb].
  rewrite enableLoop_cons, Da, decoded_ok by (rewrite ErrorOf_Decode_resp; exact Ea).
  rewrite enableLoop_cons, Db.
  rewrite (decoded_error _ _ _ e) by (rewrite ?ErrorOf_Decode_resp; assumption).
  unfold sent. cbn [requests stdout stderr]. rewrite <- app_assoc. reflexivity.
Qed.

Lemma doEnable_stops_at_second_name_witness :
  doEnable (exampleEnv (rejecting "b" "boom")) ["a"; "b"; "c"] world0
  = (Return (Some (errors_New "boom")),
     {| requests := [enableRequest "a"; enableRequest "b"]; stdout := ""; stderr := [] |}).
Proof.
  apply (doEnable_stops_at_second_name (exampleEnv (rejecting "b" "boom"))
           "a" "b" "c" "boom" world0).
  - exists (JSON emptyDocument). split; reflexivity.
  - exists (JSON (errorDocument "boom")). repeat split; try reflexivity. discriminate.
Defined.

(** *** Malformed bodies *)

Section Malformed.

Variable env : Env.
Variable flags : Flags.

(** The repeated block cannot tell a malformed body from [{}]. *)
Lemma decoded_asEmptySuccess {A : Type} `{Decodable A} (r : HTTPResult) (w : World)
    (k k' : A -> World -> Outcome * World) :
  store emptyDocument (zero : A) = zero ->
  (forall rp w', k' rp w' = k rp w') ->
  decoded (asEmptySuccess r) w k' = decoded r w k.
Proof.
  intros Hzero Hk. destruct r as [err | [raw | doc]]; cbn [asEmptySuccess].
  - reflexivity.
  - unfold decoded, Decode. rewrite Hzero, Hk. reflexivity.
  - unfold decoded. destruct (Decode (JSON doc) zero) as [rp e].
    rewrite Hk. reflexivity.
Qed.

Lemma enableLoop_malformed (names : list string) (w : World) :
  enableLoop (readingMalformedAsEmpty env) names w = enableLoop env names w.
Proof.
  revert w. induction names as [| name rest IH]; intros w; [reflexivity |].
  rewrite !enableLoop_cons. apply decoded_asEmptySuccess; [reflexivity | intros; apply IH].
Qed.

Lemma deleteLoop_malformed (baseURL paramName : string) (ids : list string) (w : World) :
  deleteLoop (readingMalformedAsEmpty env) baseURL paramName ids w = deleteLoop env baseURL paramName ids w.
Proof.
  revert w. induction ids as [| arg rest IH]; intros w; [reflexivity |].
  cbn [deleteLoop]. unfold NewRequest. cbn [NewRequestError readingMalformedAsEmpty].
  destruct (NewRequestError env _ _); [reflexivity |].
  unfold clientDo. cbn [Do readingMalformedAsEmpty]. apply decoded_asEmptySuccess; [reflexivity | intros; apply IH].
Qed.

Lemma commandF_malformed (c : Subcommand) (args : list string) (w : World) :
  commandF (readingMalformedAsEmpty env) flags c args w = commandF env flags c args w.
Proof.
  destruct c; cbn [commandF].
  - reflexivity.
  - unfold doRecord. destruct args as [| mode rest]; [reflexivity |].
    change (recordValues (readingMalformedAsEmpty env) flags mode) with (recordValues env flags mode).
    destruct (recordValues env flags mode) as [v | err]; [| reflexivity].
    unfold Post. cbn [Do readingMalformedAsEmpty]. apply decoded_asEmptySuccess; intros; reflexivity.
  - unfold doDefine. destruct (_ || _); [reflexivity |].
    cbn [Open readingMalformedAsEmpty].
    destruct (Open env _) as [f | err]; [| reflexivity].
    unfold Post. cbn [Do readingMalformedAsEmpty]. apply decoded_asEmptySuccess; intros; reflexivity.
  - unfold doReplay, Post. cbn [Do readingMalformedAsEmpty]. apply decoded_asEmptySuccess; intros; reflexivity.
  - unfold doEnable. destruct (_ <? _)%nat; [reflexivity |]. apply enableLoop_malformed.
  - unfold doDisable. destruct (_ <? _)%nat; [reflexivity |].
    destruct args as [| name rest]; [reflexivity |].
    unfold disableLoop, Post. cbn [Do readingMalformedAsEmpty]. apply decoded_asEmptySuccess; intros; reflexivity.
  - unfold doDelete. destruct (_ <? _)%nat; [reflexivity |].
    destruct args as [| kind ids]; [reflexivity |].
    destruct (if kind =? "task" then _ else _) as [baseURL paramName].
    apply deleteLoop_malformed.
  - unfold doList. destruct args as [| kind filter]; [reflexivity |].
    destruct (kind =? "tasks"); [| destruct (kind =? "recordings"); [| reflexivity]];
      unfold Get; cbn [Do readingMalformedAsEmpty];
      apply decoded_asEmptySuccess; intros; reflexivity.
  - unfold doLevel. destruct args as [| lvl rest]; [reflexivity |].
    unfold Post. cbn [Do readingMalformedAsEmpty]. apply decoded_asEmptySuccess; intros; reflexivity.
  - reflexivity.
Qed.

End Malformed.

(** C4: decoding a body that is not JSON leaves the zero struct and the
    decoder's error goes nowhere: every subcommand, on every argument list,
    ends the same way and leaves the same requests and output as it does when
    each malformed body is replaced by the empty success [{}]. *)
Theorem malformed_body_is_empty_success (env : Env) (flags : Flags) (c : Subcommand)
    (args : list string) (w : World) :
  (forall (A : Type) (D : Decodable A) (raw : string),
      fst (Decode (NotJSON raw) (zero : A)) = zero)
  /\ commandF env flags c args w
     = commandF (readingMalformedAsEmpty env) flags c args w.
Proof.
  split; [reflexivity |]. symmetry. apply commandF_malformed.
Qed.

Example record_malformed :
  doRecord (exampleEnv (fun _ _ => Response (NotJSON "<html>"))) exampleFlags ["stream"] world0
  = (Return None,
     {| requests := [postRequest "http://localhost:9092/record?duration=5m0s&type=stream"];
        stdout := nl; stderr := [] |}).
Proof. reflexivity. Qed.

(** *** Record *)

Lemma RecordingID_Decode (body : Body) :
  respRecord_RecordingID (fst (Decode body zero)) = RecordingIDIn body.
Proof. destruct body as [raw | doc]; reflexivity. Qed.

(** C7: a record invocation with a mode doRecord knows, answered without
    transport error and without reported error, writes the returned recording
    identifier and a newline to standard output and nothing to the
    diagnostic stream, and returns nil. *)
Theorem doRecord_prints_recording_id (env : Env) (flags : Flags) (mode : string)
    (rest : list string) (w : World) (v : url.Values) (body : Body)
    (Hmode : recordValues env flags mode = inl v)
    (Hok : succeeds env w (recordRequest v) body) :
  doRecord env flags (mode :: rest) w
  = (Return None,
     {| requests := (requests w ++ [recordRequest v])%list;
        stdout := stdout w ++ RecordingIDIn body ++ nl;
        stderr := stderr w |}).
Proof.
  destruct Hok as [D E]. unfold doRecord. rewrite Hmode. unfold Post.
  change (Do env (requests w) _) with (Do env (requests w) (recordRequest v)).
  rewrite D, decoded_ok by (rewrite ErrorOf_Decode_respRecord; exact E).
  rewrite RecordingID_Decode. reflexivity.
Qed.

Lemma doRecord_prints_recording_id_witness :
  doRecord (exampleEnv (answering (recordedDocument "4b1c"))) exampleFlags ["stream"] world0
  = (Return None,
     {| requests := [postRequest "http://localhost:9092/record?duration=5m0s&type=stream"];
        stdout := "4b1c" ++ nl; stderr := [] |}).
Proof.
  exact (doRecord_prints_recording_id
           (exampleEnv (answering (recordedDocument "4b1c"))) exampleFlags
           "stream" [] world0 [("type", ["stream"]); ("duration", ["5m0s"])]
           (JSON (recordedDocument "4b1c")) eq_refl (conj eq_refl eq_refl)).
Defined.

(** *** List *)

Lemma printRows_spec {A : Type} (row : A -> string) (l : list A) (w : World) :
  printRows row l w = toStdout (lines (map row l)) w.
Proof.
  revert w. induction l as [| x rest IH]; intros [rq out err].
  - unfold toStdout. cbn. rewrite append_nil_r. reflexivity.
  - cbn [printRows map lines fold_right]. rewrite IH. unfold toStdout. cbn.
    rewrite append_assoc. reflexivity.
Qed.

Lemma Tasks_Decode (body : Body) :
  respTasks_Tasks (fst (Decode body zero)) = TasksIn body.
Proof. destruct body as [raw | doc]; reflexivity. Qed.

Lemma Recordings_Decode (body : Body) :
  respRecordings_Recordings (fst (Decode body zero)) = RecordingsIn body.
Proof. destruct body as [raw | doc]; reflexivity. Qed.

Lemma doList_tasks_ok (env : Env) (filter : list string) (w : World) (body : Body) :
  succeeds env w (tasksRequest filter) body ->
  doList env ("tasks" :: filter) w
  = (Return None,
     {| requests := (requests w ++ [tasksRequest filter])%list;
        stdout := stdout w ++ taskLine "Name" "Type" "Enabled"
                    ++ lines (map (taskRow env) (TasksIn body));
        stderr := stderr w |}).
Proof.
  intros [D E]. unfold doList. cbn [String.eqb Ascii.eqb Bool.eqb].
  unfold Get. rewrite Encode_single. cbn [url.QueryEscape].
  change (Do env (requests w) _) with (Do env (requests w) (tasksRequest filter)).
  rewrite D, decoded_ok by (rewrite ErrorOf_Decode_respTasks; exact E).
  rewrite printRows_spec, Tasks_Decode. unfold toStdout, sent.
  cbn [requests stdout stderr]. rewrite append_assoc. reflexivity.
Qed.

Lemma doList_recordings_ok (env : Env) (filter : list string) (w : World) (body : Body) :
  succeeds env w (recordingsRequest filter) body ->
  doList env ("recordings" :: filter) w
  = (Return None,
     {| requests := (requests w ++ [recordingsRequest filter])%list;
        stdout := stdout w ++ recordingHeader
                    ++ lines (map (recordingRow env) (RecordingsIn body));
        stderr := stderr w |}).
Proof.
  intros [D E]. unfold doList. cbn [String.eqb Ascii.eqb Bool.eqb].
  unfold Get. rewrite Encode_single. cbn [url.QueryEscape].
  change (Do env (requests w) _) with (Do env (requests w) (recordingsRequest filter)).
  rewrite D, decoded_ok by (rewrite ErrorOf_Decode_respRecordings; exact E).
  rewrite printRows_spec, Recordings_Decode. unfold toStdout, sent.
  cbn [requests stdout stderr]. rewrite append_assoc. reflexivity.
Qed.

(** C8: a list invocation answered without error prints the column header
    first and then one row per returned entry; when the returned collection
    is empty, the header line is all it prints. *)
Theorem doList_prints_header_first (env : Env) (filter : list string) (w : World)
    (body : Body) :
  (succeeds env w (tasksRequest filter) body ->
   let w' := snd (doList env ("tasks" :: filter) w) in
   fst (doList env ("tasks" :: filter) w) = Return None
   /\ stdout w' = stdout w ++ taskLine "Name" "Type" "Enabled"
                           ++ lines (map (taskRow env) (TasksIn body))
   /\ (TasksIn body = [] -> stdout w' = stdout w ++ taskLine "Name" "Type" "Enabled"))
  /\
  (succeeds env w (recordingsRequest filter) body ->
   let w' := snd (doList env ("recordings" :: filter) w) in
   fst (doList env ("recordings" :: filter) w) = Return None
   /\ stdout w' = stdout w ++ recordingHeader
                           ++ lines (map (recordingRow env) (RecordingsIn body))
   /\ (RecordingsIn body = [] -> stdout w' = stdout w ++ recordingHeader)).
Proof.
  split; intros Hok; cbv zeta.
  - rewrite (doList_tasks_ok env filter w body Hok). cbn [fst snd stdout].
    repeat split. intros Hnil. rewrite Hnil. cbn [map lines fold_right].
    rewrite append_nil_r. reflexivity.
  - rewrite (doList_recordings_ok env filter w body Hok). cbn [fst snd stdout].
    repeat split. intros Hnil. rewrite Hnil. cbn [map lines fold_right].
    rewrite append_nil_r. reflexivity.
Qed.

Example tasks_header :
  taskLine "Name" "Type" "Enabled"
  = "Name                          Type      Enabled   " ++ nl.
Proof. reflexivity. Qed.

Example recordings_header :
  recordingHeader
  = "ID                                      Type            Size (MB)" ++ nl.
Proof. reflexivity. Qed.

Lemma doList_prints_header_first_witness :
  stdout (snd (doList (exampleEnv alwaysOK) ["recordings"] world0))
  = "ID                                      Type            Size (MB)" ++ nl
  /\ stdout (snd (doList (exampleEnv alwaysOK) ["tasks"] world0))
    = "Name                          Type      Enabled   " ++ nl.
Proof.
  pose proof (doList_prints_header_first (exampleEnv alwaysOK) [] world0
                (JSON emptyDocument)) as [Ht Hr].
  split.
  - apply (Hr (conj eq_refl eq_refl)). reflexivity.
  - apply (Ht (conj eq_refl eq_refl)). reflexivity.
Defined.

(** C9: when the first argument of list is neither [tasks] nor
    [recordings], doList returns nil and leaves the world as it found it:
    no request, nothing on either stream; [main] then ends with status 0. *)
Theorem doList_unknown_kind_is_silent_success (env : Env) (kind : string)
    (rest : list string) (w : World)
    (Htasks : kind <> "tasks") (Hrecordings : kind <> "recordings") :
  doList env (kind :: rest) w = (Return None, w)
  /\ finish (doList env (kind :: rest) w) = (0%Z, w).
Proof.
  unfold doList.
  destruct (String.eqb_spec kind "tasks") as [E | _]; [contradiction |].
  destruct (String.eqb_spec kind "recordings") as [E | _]; [contradiction |].
  split; reflexivity.
Qed.

Lemma doList_unknown_kind_is_silent_success_witness :
  doList (exampleEnv alwaysOK) ["task"; "cpu_idle"] world0 = (Return None, world0)
  /\ finish (doList (exampleEnv alwaysOK) ["task"; "cpu_idle"] world0) = (0%Z, world0).
Proof.
  apply (doList_unknown_kind_is_silent_success (exampleEnv alwaysOK) "task"
           ["cpu_idle"] world0); discriminate.
Defined.

(** C3, evaluated on the code: the request of [record query] carries the
    parameters [type], [qtype] and [addr] and no parameter [query]; the
    value of the query flag is not used. *)
Theorem doRecord_query_omits_query_flag (env : Env) (flags : Flags) (w : World) :
  recordValues env flags "query"
  = inl [("type", ["query"]); ("qtype", [rtype flags]); ("addr", [raddr flags])]
  /\ requests (snd (doRecord env flags ["query"] w))
     = (requests w
        ++ [postRequest ("http://localhost:9092/record?addr=" ++ url.QueryEscape (raddr flags)
                         ++ "&qtype=" ++ url.QueryEscape (rtype flags)
                         ++ "&type=query")])%list.
Proof.
  split; [reflexivity |].
  unfold doRecord. cbn [recordValues String.eqb Ascii.eqb Bool.eqb url.Add url.empty].
  unfold Post, decoded.
  destruct (Do env _ _) as [err | body]; [reflexivity |].
  destruct (Decode body zero) as [rp ?]. destruct (negb _); reflexivity.
Qed.

Example record_query :
  map URL (requests (snd (doRecord (exampleEnv alwaysOK) exampleFlags ["query"] world0)))
  = ["http://localhost:9092/record?addr=http%3A%2F%2Flocalhost%3A8086&qtype=streamer&type=query"].
Proof. reflexivity. Qed.

(** *** Escaping and reading back *)

Lemma escapedByte_plain (c : ascii) :
  url.escapedByte c = true ->
  Ascii.eqb c "?" = false /\ Ascii.eqb c "&" = false /\ Ascii.eqb c "=" = false.
Proof. each_byte c; vm_compute; intros H; try discriminate H; repeat split. Qed.

Lemma hexdigit_high_escaped (c : ascii) :
  url.escapedByte (url.hexdigit (N.shiftr (N_of_ascii c) 4)) = true.
Proof. each_byte c; reflexivity. Qed.

Lemma hexdigit_low_escaped (c : ascii) :
  url.escapedByte (url.hexdigit (N.land (N_of_ascii c) 15)) = true.
Proof. each_byte c; reflexivity. Qed.

Lemma unhex_hexdigit (c : ascii) :
  url.unhex (url.hexdigit (N.shiftr (N_of_ascii c) 4)) = Some (N.shiftr (N_of_ascii c) 4)
  /\ url.unhex (url.hexdigit (N.land (N_of_ascii c) 15)) = Some (N.land (N_of_ascii c) 15)
  /\ ascii_of_N (16 * N.shiftr (N_of_ascii c) 4 + N.land (N_of_ascii c) 15) = c.
Proof. each_byte c; repeat split. Qed.

Lemma unescaped_is_literal (c : ascii) :
  url.shouldEscape c = false -> Ascii.eqb c "%" = false /\ Ascii.eqb c "+" = false.
Proof. each_byte c; vm_compute; intros H; try discriminate H; split; reflexivity. Qed.

Lemma QueryEscape_bytes (s : string) :
  url.allBytes url.escapedByte (url.QueryEscape s) = true.
Proof.
  induction s as [| c s IH]; [reflexivity |]. cbn [url.QueryEscape].
  destruct (Ascii.eqb c " ").
  - cbn [url.allBytes]. rewrite IH. reflexivity.
  - destruct (url.shouldEscape c) eqn:E; cbn [url.allBytes].
    + rewrite hexdigit_high_escaped, hexdigit_low_escaped, IH. reflexivity.
    + unfold url.escapedByte at 1. rewrite E, IH. reflexivity.
Qed.

(** Escaping is undone by unescaping. *)
Lemma QueryUnescape_QueryEscape (s : string) :
  url.QueryUnescape (url.QueryEscape s) = Some s.
Proof.
  induction s as [| c s IH]; [reflexivity |]. cbn [url.QueryEscape].
  destruct (Ascii.eqb_spec c " ") as [-> | Hsp].
  - cbn. rewrite IH. reflexivity.
  - destruct (url.shouldEscape c) eqn:E.
    + cbn [url.QueryUnescape]. change (Ascii.eqb "%" "%") with true. cbv iota.
      destruct (unhex_hexdigit c) as [Hh [Hl Hc]]. rewrite Hh, Hl, IH, Hc. reflexivity.
    + destruct (unescaped_is_literal c E) as [Hp Hq].
      cbn [url.QueryUnescape]. rewrite Hp, Hq, IH. reflexivity.
Qed.

Lemma allBytes_app (p : ascii -> bool) (a b : string) :
  url.allBytes p (a ++ b) = url.allBytes p a && url.allBytes p b.
Proof.
  induction a as [| c a IH]; [reflexivity |]. cbn. rewrite IH. apply andb_assoc.
Qed.

Lemma allBytes_weaken (p q : ascii -> bool) (s : string) :
  (forall c, p c = true -> q c = true) ->
  url.allBytes p s = true -> url.allBytes q s = true.
Proof.
  intros Hpq. induction s as [| c s IH]; [reflexivity |]. cbn.
  intros H. apply andb_true_iff in H as [Hc Hs]. rewrite (Hpq c Hc), (IH Hs). reflexivity.
Qed.

Lemma QueryEscape_without (sep : ascii) (s : string) :
  sep = "?"%char \/ sep = "&"%char \/ sep = "="%char ->
  url.allBytes (url.differs sep) (url.QueryEscape s) = true.
Proof.
  intros Hsep. apply (allBytes_weaken url.escapedByte); [| apply QueryEscape_bytes].
  intros c Hc. destruct (escapedByte_plain c Hc) as [Hq [Ha He]]. unfold url.differs.
  destruct Hsep as [-> | [-> | ->]]; [rewrite Hq | rewrite Ha | rewrite He]; reflexivity.
Qed.

Lemma cut_absent (sep : ascii) (s : string) :
  url.allBytes (url.differs sep) s = true -> url.cut sep s = (s, None).
Proof.
  induction s as [| c s IH]; [reflexivity |]. cbn. unfold url.differs at 1.
  intros H. apply andb_true_iff in H as [Hc Hs].
  destruct (Ascii.eqb c sep); [discriminate Hc |]. rewrite (IH Hs). reflexivity.
Qed.

Lemma cut_present (sep : ascii) (a b : string) :
  url.allBytes (url.differs sep) a = true ->
  url.cut sep (a ++ String sep b) = (a, Some b).
Proof.
  induction a as [| c a IH]; cbn.
  - intros _. rewrite Ascii.eqb_refl. reflexivity.
  - unfold url.differs at 1. intros H. apply andb_true_iff in H as [Hc Hs].
    destruct (Ascii.eqb c sep); [discriminate Hc |]. rewrite (IH Hs). reflexivity.
Qed.

Lemma Split_absent (sep : ascii) (s : string) :
  url.allBytes (url.differs sep) s = true -> url.Split sep s = [s].
Proof.
  induction s as [| c s IH]; [reflexivity |]. cbn. unfold url.differs at 1.
  intros H. apply andb_true_iff in H as [Hc Hs].
  destruct (Ascii.eqb c sep); [discriminate Hc |]. rewrite (IH Hs). reflexivity.
Qed.

Lemma Split_present (sep : ascii) (a b : string) :
  url.allBytes (url.differs sep) a = true ->
  url.Split sep (a ++ String sep b) = a :: url.Split sep b.
Proof.
  induction a as [| c a IH]; cbn.
  - intros _. rewrite Ascii.eqb_refl. reflexivity.
  - unfold url.differs at 1. intros H. apply andb_true_iff in H as [Hc Hs].
    destruct (Ascii.eqb c sep); [discriminate Hc |]. rewrite (IH Hs). reflexivity.
Qed.

Lemma encodePair_without_amp (p : string * string) :
  url.allBytes (url.differs "&") (url.encodePair p) = true.
Proof.
  unfold url.encodePair. rewrite !allBytes_app.
  rewrite !QueryEscape_without by auto. reflexivity.
Qed.

Lemma encodePair_not_empty (p : string * string) : (url.encodePair p =? "") = false.
Proof.
  unfold url.encodePair. destruct (url.QueryEscape (fst p)); reflexivity.
Qed.

Lemma cut_encodePair (p : string * string) :
  url.cut "=" (url.encodePair p)
  = (url.QueryEscape (fst p), Some (url.QueryEscape (snd p))).
Proof. unfold url.encodePair. apply cut_present. apply QueryEscape_without. auto. Qed.

Lemma Split_Join_encodePair (p : string * string) (ps : list (string * string)) :
  url.Split "&" (strings.Join (map url.encodePair (p :: ps)) "&")
  = map url.encodePair (p :: ps).
Proof.
  revert p. induction ps as [| q ps IH]; intros p.
  - cbn [map strings.Join]. apply Split_absent, encodePair_without_amp.
  - change (strings.Join (map url.encodePair (p :: q :: ps)) "&")
      with (url.encodePair p ++ String "&" (strings.Join (map url.encodePair (q :: ps)) "&")).
    rewrite Split_present by apply encodePair_without_amp.
    rewrite IH. reflexivity.
Qed.

Lemma parsePieces_encodePair (ps : list (string * string)) :
  url.parsePieces (map url.encodePair ps) = Some ps.
Proof.
  induction ps as [| [k x] ps IH]; [reflexivity |].
  cbn [map url.parsePieces]. rewrite encodePair_not_empty, cut_encodePair.
  cbn [fst snd]. rewrite !QueryUnescape_QueryEscape, IH. reflexivity.
Qed.

(** Round trip: the service reads from an encoded query string exactly the
    pairs that were put into it. *)
Lemma ParseQuery_Encode (v : url.Values) :
  url.ParseQuery (url.Encode v) = Some (url.pairs v).
Proof.
  unfold url.ParseQuery, url.Encode. destruct (url.pairs v) as [| p ps]; [reflexivity |].
  rewrite Split_Join_encodePair. apply parsePieces_encodePair.
Qed.

Lemma int64_in_range (x : Z) : (- 2 ^ 63 <= x < 2 ^ 63)%Z -> int64 x = x.
Proof. intros H. unfold int64. rewrite Z.mod_small; lia. Qed.

Lemma RawQuery_record (q : string) :
  url.RawQuery ("http://localhost:9092/record?" ++ q) = q.
Proof. reflexivity. Qed.

(** C6: for [record batch] with a repeat count in the range of the flag's
    integer type, the request goes to the record endpoint and its query
    string holds the five parameters [addr], [name], [num], [start] and
    [type=batch], with the values of the flags ([num] as a decimal numeral),
    and nothing else. *)
Theorem doRecord_batch_parameters (env : Env) (flags : Flags) (w : World)
    (Hnum : (- 2 ^ 63 <= rnum flags < 2 ^ 63)%Z) :
  exists v : url.Values,
    recordValues env flags "batch" = inl v
    /\ requests (snd (doRecord env flags ["batch"] w))
       = (requests w ++ [recordRequest v])%list
    /\ url.RawQuery (URL (recordRequest v)) = url.Encode v
    /\ url.ParseQuery (url.Encode v)
       = Some [("addr", raddr flags); ("name", rname flags);
               ("num", strconv.FormatInt (rnum flags)); ("start", rstart flags);
               ("type", "batch")].
Proof.
  exists [("type", ["batch"]); ("name", [rname flags]); ("start", [rstart flags]);
          ("num", [strconv.FormatInt (rnum flags)]); ("addr", [raddr flags])].
  assert (Hv : recordValues env flags "batch"
               = inl [("type", ["batch"]); ("name", [rname flags]);
                      ("start", [rstart flags]);
                      ("num", [strconv.FormatInt (rnum flags)]);
                      ("addr", [raddr flags])]).
  { unfold recordValues. rewrite (int64_in_range _ Hnum). reflexivity. }
  split; [exact Hv |]. split; [| split].
  - unfold doRecord. rewrite Hv. unfold Post, decoded.
    destruct (Do env _ _) as [err | body]; [reflexivity |].
    destruct (Decode body zero) as [rp ?]. destruct (negb _); reflexivity.
  - apply RawQuery_record.
  - rewrite ParseQuery_Encode. reflexivity.
Qed.

Lemma doRecord_batch_parameters_witness :
  exists v : url.Values,
    recordValues (exampleEnv alwaysOK) exampleFlags "batch" = inl v
    /\ requests (snd (doRecord (exampleEnv alwaysOK) exampleFlags ["batch"] world0))
       = [recordRequest v]
    /\ url.RawQuery (URL (recordRequest v)) = url.Encode v
    /\ url.ParseQuery (url.Encode v)
       = Some [("addr", "http://localhost:8086"); ("name", "cpu_idle"); ("num", "10");
               ("start", "2015-09-01T00:00:00Z"); ("type", "batch")].
Proof.
  apply (doRecord_batch_parameters (exampleEnv alwaysOK) exampleFlags world0).
  cbn. lia.
Defined.

Example record_batch :
  map URL (requests (snd (doRecord (exampleEnv alwaysOK) exampleFlags ["batch"] world0)))
  = ["http://localhost:9092/record?addr=http%3A%2F%2Flocalhost%3A8086&name=cpu_idle&num=10&start=2015-09-01T00%3A00%3A00Z&type=batch"].
Proof. reflexivity. Qed.

(** *** Delete *)

Lemma deleteLoop_cons (env : Env) (baseURL paramName arg : string)
    (rest : list string) (w : World) :
  deleteLoop env baseURL paramName (arg :: rest) w
  = match NewRequestError env "DELETE" (deleteURL baseURL paramName arg) with
    | Some err => (Return (Some err), w)
    | None =>
        decoded (Do env (requests w) (deleteRequest (deleteURL baseURL paramName arg)))
          (sent (deleteRequest (deleteURL baseURL paramName arg)) w)
          (fun (_ : resp) w' => deleteLoop env baseURL paramName rest w')
    end.
Proof.
  cbn [deleteLoop]. unfold NewRequest. rewrite Encode_single.
  fold (deleteURL baseURL paramName arg).
  destruct (NewRequestError env _ _); reflexivity.
Qed.

Lemma world_eta (w : World) :
  w = {| requests := (requests w ++ [])%list; stdout := stdout w; stderr := stderr w |}.
Proof. destruct w. cbn. rewrite app_nil_r. reflexivity. Qed.

(** The loop sends the requests of a prefix of the identifiers, in order,
    writes nothing, and returns. *)
Lemma deleteLoop_sends (env : Env) (baseURL paramName : string) (ids : list string)
    (w : World) :
  exists (n : nat) (err : option error),
    deleteLoop env baseURL paramName ids w
    = (Return err,
       {| requests := (requests w
                       ++ map (fun id => deleteRequest (deleteURL baseURL paramName id))
                              (firstn n ids))%list;
          stdout := stdout w; stderr := stderr w |}).
Proof.
  revert w. induction ids as [| arg rest IH]; intros w.
  - exists 0%nat, None. cbn [deleteLoop firstn map]. rewrite <- world_eta. reflexivity.
  - rewrite deleteLoop_cons.
    destruct (NewRequestError env _ _) as [e |].
    { exists 0%nat, (Some e). cbn [firstn map]. rewrite <- world_eta. reflexivity. }
    destruct (Do env _ _) as [e | body].
    { exists 1%nat, (Some e). reflexivity. }
    rewrite decoded_Response.
    destruct (negb _).
    { exists 1%nat. eexists. reflexivity. }
    destruct (IH (sent (deleteRequest (deleteURL baseURL paramName arg)) w))
      as [n [err Hn]].
    exists (S n), err. rewrite Hn. unfold sent. cbn [requests stdout stderr firstn map].
    rewrite <- app_assoc. reflexivity.
Qed.

(** When no request fails, the loop sends one request per identifier. *)
Lemma deleteLoop_all (env : Env) (baseURL paramName : string) (ids : list string)
    (w : World) :
  (forall u, NewRequestError env "DELETE" u = None) ->
  (forall history req, exists body,
      Do env history req = Response body /\ ErrorIn body = "") ->
  deleteLoop env baseURL paramName ids w
  = (Return None,
     {| requests := (requests w
                     ++ map (fun id => deleteRequest (deleteURL baseURL paramName id)) ids)%list;
        stdout := stdout w; stderr := stderr w |}).
Proof.
  intros Hnew Hdo. revert w. induction ids as [| arg rest IH]; intros w.
  - cbn [deleteLoop map]. rewrite <- world_eta. reflexivity.
  - rewrite deleteLoop_cons, Hnew.
    destruct (Hdo (requests w) (deleteRequest (deleteURL baseURL paramName arg)))
      as [body [D E]].
    rewrite D, decoded_ok by (rewrite ErrorOf_Decode_resp; exact E).
    rewrite IH. unfold sent. cbn [requests stdout stderr map].
    rewrite <- app_assoc. reflexivity.
Qed.

Lemma cut_app_absent (sep : ascii) (a b : string) :
  url.allBytes (url.differs sep) a = true ->
  url.cut sep (a ++ b) = (a ++ fst (url.cut sep b), snd (url.cut sep b)).
Proof.
  induction a as [| c a IH]; cbn.
  - intros _. destruct (url.cut sep b). reflexivity.
  - unfold url.differs at 1. intros H. apply andb_true_iff in H as [Hc Hs].
    destruct (Ascii.eqb c sep); [discriminate Hc |]. rewrite (IH Hs). reflexivity.
Qed.

Lemma cut_question_escaped (front id : string) :
  url.allBytes (url.differs "?") front = true ->
  url.cut "?" (front ++ url.QueryEscape id) = (front ++ url.QueryEscape id, None).
Proof.
  intros H. rewrite (cut_app_absent _ _ _ H).
  rewrite cut_absent by (apply QueryEscape_without; auto). reflexivity.
Qed.

Lemma doDelete_requests (env : Env) (kind baseURL paramName : string)
    (ids : list string) (w : World) :
  (if kind =? "task" then ("http://localhost:9092/task", "name")
   else if kind =? "recording" then ("http://localhost:9092/recording", "rid")
   else ("", "")) = (baseURL, paramName) ->
  exists n : nat,
    requests (snd (doDelete env (kind :: ids) w))
    = (requests w
       ++ map (fun id => deleteRequest (deleteURL baseURL paramName id)) (firstn n ids))%list.
Proof.
  intros Hkind. destruct ids as [| arg rest].
  - exists 0%nat. cbn. rewrite app_nil_r. reflexivity.
  - unfold doDelete. cbn [length Nat.ltb Nat.leb]. rewrite Hkind.
    destruct (deleteLoop_sends env baseURL paramName (arg :: rest)
                (toStderr (Logged (fmt.SprintlnSlice (kind :: arg :: rest))) w))
      as [n [err Hn]].
    exists n. rewrite Hn. reflexivity.
Qed.

(** C2, evaluated on the code: the URL of a delete request is the endpoint
    followed at once by [name=<id>] (or [rid=<id>]); there is no [?], so the
    URL has no query string and the parameter is part of its path. *)
Theorem doDelete_parameter_is_in_path (env : Env) (ids : list string) (w : World) :
  (exists n : nat,
      requests (snd (doDelete env ("task" :: ids) w))
      = (requests w
         ++ map (fun id => deleteRequest ("http://localhost:9092/taskname="
                                          ++ url.QueryEscape id))
                (firstn n ids))%list)
  /\ (exists n : nat,
      requests (snd (doDelete env ("recording" :: ids) w))
      = (requests w
         ++ map (fun id => deleteRequest ("http://localhost:9092/recordingrid="
                                          ++ url.QueryEscape id))
                (firstn n ids))%list)
  /\ (forall id : string,
      url.hasQuery ("http://localhost:9092/taskname=" ++ url.QueryEscape id) = false
      /\ url.EscapedPath ("http://localhost:9092/taskname=" ++ url.QueryEscape id)
         = "/taskname=" ++ url.QueryEscape id
      /\ url.hasQuery ("http://localhost:9092/recordingrid=" ++ url.QueryEscape id) = false
      /\ url.EscapedPath ("http://localhost:9092/recordingrid=" ++ url.QueryEscape id)
         = "/recordingrid=" ++ url.QueryEscape id).
Proof.
  split; [| split].
  - apply (doDelete_requests env "task" "http://localhost:9092/task" "name"). reflexivity.
  - apply (doDelete_requests env "recording" "http://localhost:9092/recording" "rid").
    reflexivity.
  - intros id. unfold url.hasQuery, url.EscapedPath.
    rewrite !cut_question_escaped by reflexivity. repeat split.
Qed.

Example delete_task_cpu :
  doDelete (exampleEnv alwaysOK) ["task"; "cpu"] world0
  = (Return None,
     {| requests := [deleteRequest "http://localhost:9092/taskname=cpu"];
        stdout := "";
        stderr := [Logged ("[task cpu]" ++ nl)] |})
  /\ url.EscapedPath "http://localhost:9092/taskname=cpu" = "/taskname=cpu"
  /\ url.RawQuery "http://localhost:9092/taskname=cpu" = "".
Proof. repeat split. Qed.

(** C10, as the code has it: with a kind that is neither [task] nor
    [recording] and at least one identifier, doDelete prints no usage text
    and does not exit.  It builds a DELETE request for the first identifier
    from an empty base URL and an empty parameter name, so the URL is
    [=<id>] and has no scheme.  If the request cannot be built, that error
    is returned and nothing is sent; otherwise the request is handed to the
    client, which refuses a URL without scheme, and doDelete returns the
    client's error.  No request is built for a later identifier. *)
Theorem doDelete_unknown_kind_stops_at_first_identifier (env : Env) (kind id : string)
    (rest : list string) (w : World)
    (Htask : kind <> "task") (Hrecording : kind <> "recording")
    (Hclient : refusesSchemeless env) :
  url.getScheme ("=" ++ url.QueryEscape id) = ""
  /\ match NewRequestError env "DELETE" ("=" ++ url.QueryEscape id) with
     | Some err =>
         doDelete env (kind :: id :: rest) w
         = (Return (Some err),
            {| requests := requests w;
               stdout := stdout w;
               stderr := (stderr w
                          ++ [Logged (fmt.SprintlnSlice (kind :: id :: rest))])%list |})
     | None =>
         exists err,
           Do env (requests w) (deleteRequest ("=" ++ url.QueryEscape id))
           = TransportError err
           /\ doDelete env (kind :: id :: rest) w
              = (Return (Some err),
                 {| requests := (requests w
                                 ++ [deleteRequest ("=" ++ url.QueryEscape id)])%list;
                    stdout := stdout w;
                    stderr := (stderr w
                               ++ [Logged (fmt.SprintlnSlice (kind :: id :: rest))])%list |})
     end.
Proof.
  split; [reflexivity |].
  unfold doDelete. cbn [length Nat.ltb Nat.leb].
  destruct (String.eqb_spec kind "task") as [E | _]; [contradiction |].
  destruct (String.eqb_spec kind "recording") as [E | _]; [contradiction |].
  rewrite deleteLoop_cons.
  change (deleteURL "" "" id) with ("=" ++ url.QueryEscape id).
  destruct (NewRequestError env "DELETE" ("=" ++ url.QueryEscape id)) as [e |];
    [reflexivity |].
  destruct (Hclient (requests w) (deleteRequest ("=" ++ url.QueryEscape id)) eq_refl)
    as [err Herr].
  exists err. split; [exact Herr |].
  cbn [toStderr requests]. rewrite Herr. reflexivity.
Qed.

Lemma doDelete_unknown_kind_stops_at_first_identifier_witness :
  exists err,
    Do (exampleEnv (throughClient alwaysOK)) [] (deleteRequest "=a") = TransportError err
    /\ doDelete (exampleEnv (throughClient alwaysOK)) ["tasks"; "a"; "b"] world0
       = (Return (Some err),
          {| requests := [deleteRequest "=a"];
             stdout := "";
             stderr := [Logged ("[tasks a b]" ++ nl)] |}).
Proof.
  apply (doDelete_unknown_kind_stops_at_first_identifier
           (exampleEnv (throughClient alwaysOK)) "tasks" "a" ["b"] world0);
    try discriminate.
  intros history req Hscheme. exists (foreign "unsupported protocol scheme").
  cbn [Do exampleEnv]. unfold throughClient. rewrite Hscheme. reflexivity.
Defined.

(** C10 as it was stated fails on [delete tasks a b]: a request goes out
    for [a] only; the client refuses it, doDelete returns that error, and no
    request is built for [b]. *)
Lemma doDelete_unknown_kind_second_identifier_not_sent :
  doDelete (exampleEnv (throughClient alwaysOK)) ["tasks"; "a"; "b"] world0
  = (Return (Some (foreign "unsupported protocol scheme")),
     {| requests := [deleteRequest "=a"];
        stdout := "";
        stderr := [Logged ("[tasks a b]" ++ nl)] |})
  /\ ~ (forall id, In id ["a"; "b"] ->
          In (deleteRequest ("=" ++ url.QueryEscape id))
             (requests (snd (doDelete (exampleEnv (throughClient alwaysOK))
                               ["tasks"; "a"; "b"] world0)))).
Proof.
  split; [reflexivity |].
  intros Hall. specialize (Hall "b" (or_intror (or_introl eq_refl))).
  cbn in Hall. destruct Hall as [H | []]. discriminate H.
Qed.

(** ** Further properties of the handlers *)

(** *** Enable: stop at the first failure *)

(** The loop of doEnable sends the requests of a prefix of the names, in
    order, and writes nothing; it returns nil only after the last name. *)
Lemma enableLoop_sends (env : Env) (names : list string) (w : World) :
  exists (n : nat) (err : option error),
    enableLoop env names w
    = (Return err,
       {| requests := (requests w ++ map enableRequest (firstn n names))%list;
          stdout := stdout w; stderr := stderr w |})
    /\ (err = None -> firstn n names = names)
    /\ (names <> [] -> (1 <= n)%nat).
Proof.
  revert w. induction names as [| name rest IH]; intros w.
  - exists 0%nat, None. cbn [enableLoop firstn map]. rewrite <- world_eta.
    repeat split. intros H. contradiction.
  - rewrite enableLoop_cons.
    destruct (Do env _ _) as [e | body].
    { exists 1%nat, (Some e). repeat split; [discriminate | lia]. }
    rewrite decoded_Response. destruct (negb _).
    { exists 1%nat. eexists. repeat split; [discriminate | lia]. }
    destruct (IH (sent (enableRequest name) w)) as [n [err [Hn [Hall _]]]].
    exists (S n), err. rewrite Hn. unfold sent. cbn [requests stdout stderr firstn map].
    rewrite <- app_assoc. repeat split.
    + intros E. rewrite (Hall E). reflexivity.
    + lia.
Qed.

(** X1: doEnable with at least one name sends the requests of a non-empty
    prefix of the names, in order, never exits and writes to neither stream;
    when it returns nil, it has sent the request of every name. *)
Theorem doEnable_sends_prefix (env : Env) (name : string) (rest : list string)
    (w : World) :
  exists (n : nat) (err : option error),
    doEnable env (name :: rest) w
    = (Return err,
       {| requests := (requests w ++ map enableRequest (firstn (S n) (name :: rest)))%list;
          stdout := stdout w; stderr := stderr w |})
    /\ (err = None -> firstn (S n) (name :: rest) = name :: rest).
Proof.
  destruct (enableLoop_sends env (name :: rest) w) as [n [err [Hn [Hall Hpos]]]].
  destruct n as [| n]; [specialize (Hpos ltac:(discriminate)); lia |].
  exists n, err. unfold doEnable. cbn [length Nat.ltb Nat.leb]. split; assumption.
Qed.



(** *** Delete: a nil return means every identifier was sent *)

Lemma deleteLoop_nil (env : Env) (baseURL paramName : string) (ids : list string)
    (w w' : World) :
  deleteLoop env baseURL paramName ids w = (Return None, w') ->
  w' = {| requests := (requests w
                       ++ map (fun id => deleteRequest (deleteURL baseURL paramName id)) ids)%list;
          stdout := stdout w; stderr := stderr w |}.
Proof.
  revert w. induction ids as [| arg rest IH]; intros w.
  - cbn [deleteLoop map]. intros H. injection H as <-. apply world_eta.
  - rewrite deleteLoop_cons.
    destruct (NewRequestError env _ _) as [e |]; [discriminate |].
    destruct (Do env _ _) as [e | body]; [discriminate |].
    rewrite decoded_Response. destruct (negb _); [discriminate |].
    intros H. rewrite (IH _ H). unfold sent. cbn [requests stdout stderr map].
    rewrite <- app_assoc. reflexivity.
Qed.

(** X3: if doDelete returns nil for a task (or a recording), it has sent one
    DELETE request per identifier, in the order of the arguments, and has
    written nothing but its log line. *)
Theorem doDelete_nil_means_all_sent (env : Env) (ids : list string) (w w' : World) :
  (doDelete env ("task" :: ids) w = (Return None, w') ->
   w' = {| requests := (requests w
                        ++ map (fun id => deleteRequest
                                  (deleteURL "http://localhost:9092/task" "name" id)) ids)%list;
           stdout := stdout w;
           stderr := (stderr w ++ [Logged (fmt.SprintlnSlice ("task" :: ids))])%list |})
  /\
  (doDelete env ("recording" :: ids) w = (Return None, w') ->
   w' = {| requests := (requests w
                        ++ map (fun id => deleteRequest
                                  (deleteURL "http://localhost:9092/recording" "rid" id)) ids)%list;
           stdout := stdout w;
           stderr := (stderr w ++ [Logged (fmt.SprintlnSlice ("recording" :: ids))])%list |}).
Proof.
  split; (destruct ids as [| arg rest]; [discriminate |]);
    unfold doDelete; cbn [length Nat.ltb Nat.leb String.eqb Ascii.eqb Bool.eqb];
    intros H; rewrite (deleteLoop_nil _ _ _ _ _ _ H); reflexivity.
Qed.

Lemma doDelete_nil_means_all_sent_witness :
  snd (doDelete (exampleEnv alwaysOK) ["recording"; "r1"; "r2"] world0)
  = {| requests := [deleteRequest "http://localhost:9092/recordingrid=r1";
                    deleteRequest "http://localhost:9092/recordingrid=r2"];
       stdout := "";
       stderr := [Logged ("[recording r1 r2]" ++ nl)] |}.
Proof.
  apply (proj2 (doDelete_nil_means_all_sent (exampleEnv alwaysOK) ["r1"; "r2"] world0
                  (snd (doDelete (exampleEnv alwaysOK) ["recording"; "r1"; "r2"] world0)))).
  reflexivity.
Defined.

(** *** What the service reads from a query string *)

Lemma ParseQuery_single (k x : string) :
  url.ParseQuery (url.QueryEscape k ++ "=" ++ url.QueryEscape x) = Some [(k, x)].
Proof. rewrite <- Encode_single. rewrite ParseQuery_Encode. reflexivity. Qed.

Lemma decoded_requests {A : Type} `{Decodable A} (r : HTTPResult) (w : World)
    (k : A -> World -> Outcome * World) :
  (forall rp w1, requests (snd (k rp w1)) = requests w1) ->
  requests (snd (decoded r w k)) = requests w.
Proof.
  intros Hk. unfold decoded. destruct r as [e | body]; [reflexivity |].
  destruct (Decode body zero) as [rp ?]. destruct (negb _); [reflexivity | apply Hk].
Qed.

(** X4: doLevel does not check the level: for every token, and whatever the
    service answers, it sends exactly one request, a POST of content type
    [text/plain] to the log-level endpoint, from whose query string the
    service reads the single parameter [level] with the token unchanged. *)
Theorem doLevel_passes_token_verbatim (env : Env) (level : string)
    (rest : list string) (w : World) :
  requests (snd (doLevel env (level :: rest) w)) = (requests w ++ [levelRequest level])%list
  /\ url.ParseQuery (url.RawQuery (URL (levelRequest level))) = Some [("level", level)].
Proof.
  split.
  - unfold doLevel, Post. rewrite Encode_single. cbn [url.QueryEscape].
    rewrite decoded_requests; [reflexivity | reflexivity].
  - change (url.RawQuery (URL (levelRequest level)))
      with (url.QueryEscape "level" ++ "=" ++ url.QueryEscape level).
    apply ParseQuery_single.
Qed.

Lemma printRows_requests {A : Type} (row : A -> string) (l : list A) (w : World) :
  requests (printRows row l w) = requests w.
Proof. rewrite printRows_spec. reflexivity. Qed.

(** X5: list sends exactly one request, a GET of the collection endpoint,
    whatever the service answers; the service reads from it the single
    parameter [tasks] (or [rids]) holding the filter arguments joined by
    commas, which is the empty string when no filter is given. *)
Theorem doList_sends_joined_filter (env : Env) (filter : list string) (w : World) :
  requests (snd (doList env ("tasks" :: filter) w))
  = (requests w ++ [tasksRequest filter])%list
  /\ url.ParseQuery (url.RawQuery (URL (tasksRequest filter)))
     = Some [("tasks", strings.Join filter ",")]
  /\ requests (snd (doList env ("recordings" :: filter) w))
     = (requests w ++ [recordingsRequest filter])%list
  /\ url.ParseQuery (url.RawQuery (URL (recordingsRequest filter)))
     = Some [("rids", strings.Join filter ",")]
  /\ strings.Join [] "," = "".
Proof.
  repeat split.
  - unfold doList. cbn [String.eqb Ascii.eqb Bool.eqb]. unfold Get.
    rewrite Encode_single. cbn [url.QueryEscape].
    rewrite decoded_requests; [reflexivity |].
    intros rp w1. cbn [snd]. rewrite printRows_requests. reflexivity.
  - change (url.RawQuery (URL (tasksRequest filter)))
      with (url.QueryEscape "tasks" ++ "=" ++ url.QueryEscape (strings.Join filter ",")).
    apply ParseQuery_single.
  - unfold doList. cbn [String.eqb Ascii.eqb Bool.eqb]. unfold Get.
    rewrite Encode_single. cbn [url.QueryEscape].
    rewrite decoded_requests; [reflexivity |].
    intros rp w1. cbn [snd]. rewrite printRows_requests. reflexivity.
  - change (url.RawQuery (URL (recordingsRequest filter)))
      with (url.QueryEscape "rids" ++ "=" ++ url.QueryEscape (strings.Join filter ",")).
    apply ParseQuery_single.
Qed.

(** X6: a task name reaches the service unchanged, whatever bytes it holds:
    from the query string of the request doEnable (doDisable) sends for a
    name, the service reads the single parameter [name] with that name. *)
Theorem task_name_round_trip (env : Env) (name : string) (rest : list string)
    (w : World) :
  (exists others,
      requests (snd (doEnable env (name :: rest) w))
      = (requests w ++ enableRequest name :: others)%list)
  /\ url.ParseQuery (url.RawQuery (URL (enableRequest name))) = Some [("name", name)]
  /\ requests (snd (doDisable env (name :: rest) w))
     = (requests w ++ [disableRequest name])%list
  /\ url.ParseQuery (url.RawQuery (URL (disableRequest name))) = Some [("name", name)].
Proof.
  repeat split.
  - destruct (enableLoop_sends env (name :: rest) w) as [n [err [Hn [_ Hpos]]]].
    destruct n as [| n]; [specialize (Hpos ltac:(discriminate)); lia |].
    exists (map enableRequest (firstn n rest)).
    unfold doEnable. cbn [length Nat.ltb Nat.leb]. rewrite Hn. reflexivity.
  - change (url.RawQuery (URL (enableRequest name)))
      with (url.QueryEscape "name" ++ "=" ++ url.QueryEscape name).
    apply ParseQuery_single.
  - unfold doDisable, disableLoop, Post. cbn [length Nat.ltb Nat.leb].
    rewrite Encode_single. cbn [url.QueryEscape].
    rewrite decoded_requests; reflexivity.
  - change (url.RawQuery (URL (disableRequest name)))
      with (url.QueryEscape "name" ++ "=" ++ url.QueryEscape name).
    apply ParseQuery_single.
Qed.

(** *** Replay, define, record: what is sent and what is refused locally *)

(** X7: doReplay sends exactly one POST to the replay endpoint; the service
    reads from it [id] and [name] with the values of the flags, and
    [clock=fast] exactly when the fast flag is set. *)
Theorem doReplay_parameters (env : Env) (flags : Flags) (args : list string) (w : World) :
  exists q : string,
    requests (snd (doReplay env flags args w))
    = (requests w ++ [postRequest ("http://localhost:9092/replay?" ++ q)])%list
    /\ url.ParseQuery q
       = Some (if rfast flags
               then [("clock", "fast"); ("id", rid flags); ("name", rtname flags)]
               else [("id", rid flags); ("name", rtname flags)]).
Proof.
  unfold doReplay, Post. eexists. split.
  - rewrite decoded_requests; reflexivity.
  - rewrite ParseQuery_Encode. destruct (rfast flags); reflexivity.
Qed.

(** X8: with a name, a script path and a readable script, doDefine sends
    exactly one POST to the task endpoint with the content of the script as
    its body; the service reads [name] and [type] from the query string.  The
    type flag is not checked: an empty type is sent as it is. *)
Theorem doDefine_sends_script (env : Env) (flags : Flags) (args : list string)
    (w : World) (f : string)
    (Hname : dname flags <> "") (Htick : dtick flags <> "")
    (Hopen : Open env (dtick flags) = inl f) :
  exists q : string,
    requests (snd (doDefine env flags args w))
    = (requests w
       ++ [{| Method := "POST"; URL := "http://localhost:9092/task?" ++ q;
              ContentType := "application/octetstream"; Payload := Some f |}])%list
    /\ url.ParseQuery q = Some [("name", dname flags); ("type", dtype flags)].
Proof.
  unfold doDefine.
  destruct (String.eqb_spec (dtick flags) "") as [E | _]; [contradiction |].
  destruct (String.eqb_spec (dname flags) "") as [E | _]; [contradiction |].
  cbn [orb]. rewrite Hopen. unfold Post. eexists. split.
  - rewrite decoded_requests; reflexivity.
  - rewrite ParseQuery_Encode. reflexivity.
Qed.

Lemma doDefine_sends_script_witness :
  exists q : string,
    requests (snd (doDefine (exampleEnv alwaysOK)
                     {| raddr := ""; rname := ""; rstart := ""; rnum := 1; rquery := "";
                        rtype := ""; rdur := 0; dname := "cpu"; dtick := "cpu.tick";
                        dtype := ""; rtname := ""; rid := ""; rfast := false;
                        defineArgs := []; replayArgs := [] |} [] world0))
    = [{| Method := "POST"; URL := "http://localhost:9092/task?" ++ q;
          ContentType := "application/octetstream"; Payload := Some "stream.from()" |}]
    /\ url.ParseQuery q = Some [("name", "cpu"); ("type", "")].
Proof.
  apply (doDefine_sends_script (exampleEnv alwaysOK)
           {| raddr := ""; rname := ""; rstart := ""; rnum := 1; rquery := "";
              rtype := ""; rdur := 0; dname := "cpu"; dtick := "cpu.tick";
              dtype := ""; rtname := ""; rid := ""; rfast := false;
              defineArgs := []; replayArgs := [] |} [] world0 "stream.from()");
    [discriminate | discriminate | reflexivity].
Defined.

(** X9: doDefine fails locally, without a request and without output on
    standard output: it exits with status 2 when the name or the script path
    is empty, and it returns the error of [os.Open] unchanged when the script
    cannot be opened. *)
Theorem doDefine_local_failures (env : Env) (flags : Flags) (args : list string)
    (w : World) :
  (dname flags = "" \/ dtick flags = "" ->
   doDefine env flags args w
   = (Exit 2, defineUsage (Eprintln "Must pass name,tick and type options." w)))
  /\ (forall err, dname flags <> "" -> dtick flags <> "" ->
      Open env (dtick flags) = inr err ->
      doDefine env flags args w = (Return (Some err), w)).
Proof.
  unfold doDefine. split.
  - intros [E | E]; rewrite E; [| reflexivity].
    destruct (dtick flags =? ""); reflexivity.
  - intros err Hname Htick Hopen.
    destruct (String.eqb_spec (dtick flags) "") as [E | _]; [contradiction |].
    destruct (String.eqb_spec (dname flags) "") as [E | _]; [contradiction |].
    cbn [orb]. rewrite Hopen. reflexivity.
Qed.

Lemma doDefine_local_failures_witness :
  doDefine (exampleEnv alwaysOK)
    {| raddr := ""; rname := ""; rstart := ""; rnum := 1; rquery := "";
       rtype := ""; rdur := 0; dname := ""; dtick := "cpu.tick";
       dtype := "streamer"; rtname := ""; rid := ""; rfast := false;
       defineArgs := []; replayArgs := [] |} [] world0
  = (Exit 2, defineUsage (Eprintln "Must pass name,tick and type options." world0)).
Proof.
  apply (proj1 (doDefine_local_failures (exampleEnv alwaysOK)
           {| raddr := ""; rname := ""; rstart := ""; rnum := 1; rquery := "";
              rtype := ""; rdur := 0; dname := ""; dtick := "cpu.tick";
              dtype := "streamer"; rtname := ""; rid := ""; rfast := false;
              defineArgs := []; replayArgs := [] |} [] world0)).
  left. reflexivity.
Defined.

(** X10: a record mode other than [stream], [batch] and [query] is refused
    before anything is sent or written: doRecord returns the error built from
    the mode and leaves the world untouched. *)
Theorem doRecord_unknown_mode (env : Env) (flags : Flags) (mode : string)
    (rest : list string) (w : World)
    (Hmode : ~ In mode ["stream"; "batch"; "query"]) :
  doRecord env flags (mode :: rest) w
  = (Return (Some (fmt_Errorf "Unknown record type %q, expected 'stream' or 'query'" mode)),
     w).
Proof.
  unfold doRecord, recordValues.
  destruct (String.eqb_spec mode "stream") as [E | _]; [elim Hmode; cbn; auto |].
  destruct (String.eqb_spec mode "batch") as [E | _]; [elim Hmode; cbn; auto |].
  destruct (String.eqb_spec mode "query") as [E | _]; [elim Hmode; cbn; auto |].
  reflexivity.
Qed.

Lemma doRecord_unknown_mode_witness :
  doRecord (exampleEnv alwaysOK) exampleFlags ["snapshot"] world0
  = (Return (Some (fmt_Errorf "Unknown record type %q, expected 'stream' or 'query'"
                     "snapshot")),
     world0).
Proof.
  apply (doRecord_unknown_mode (exampleEnv alwaysOK) exampleFlags "snapshot" [] world0).
  cbn. intros [H | [H | [H | H]]]; try discriminate H. exact H.
Defined.

(** X11: for [record stream] the request goes to the record endpoint and
    the service reads from its query string exactly [duration], the duration
    flag as [time.Duration] prints it, and [type=stream]. *)
Theorem doRecord_stream_parameters (env : Env) (flags : Flags) (w : World) :
  exists v : url.Values,
    recordValues env flags "stream" = inl v
    /\ requests (snd (doRecord env flags ["stream"] w))
       = (requests w ++ [recordRequest v])%list
    /\ url.ParseQuery (url.RawQuery (URL (recordRequest v)))
       = Some [("duration", DurationString env (rdur flags)); ("type", "stream")].
Proof.
  exists [("type", ["stream"]); ("duration", [DurationString env (rdur flags)])].
  split; [reflexivity |]. split.
  - unfold doRecord. cbn [recordValues String.eqb Ascii.eqb Bool.eqb url.Add url.empty].
    unfold Post. rewrite decoded_requests; reflexivity.
  - unfold recordRequest, postRequest. cbn [URL].
    rewrite RawQuery_record, ParseQuery_Encode. reflexivity.
Qed.

(** *** Help *)

Lemma doHelp_outcome (args : list string) (w : World) :
  requests (snd (doHelp args w)) = requests w
  /\ stdout (snd (doHelp args w)) = stdout w
  /\ (forall command, args = [command] -> ~ In command helpTopics ->
      doHelp args w
      = (Exit 1, Eprintln usageStr (Eprintln ("Unknown command " ++ command) w)))
  /\ ((forall command, args = [command] -> In command helpTopics) ->
      fst (doHelp args w) = Return None).
Proof.
  unfold doHelp. destruct args as [| command [| second more]].
  - split; [reflexivity | split; [reflexivity | split]]; intros; try discriminate.
    reflexivity.
  - repeat match goal with
           | |- context [String.eqb command ?x] =>
               destruct (String.eqb_spec command x) as [-> | ?]
           end;
      (split; [reflexivity | split; [reflexivity | split]];
       [ intros c Hc Hin; injection Hc as <-; try reflexivity;
         elim Hin; cbn; tauto
       | intros Hall; try reflexivity; specialize (Hall _ eq_refl); cbn in Hall;
         intuition congruence ]).
  - split; [reflexivity | split; [reflexivity | split]]; intros; try discriminate.
    reflexivity.
Qed.

(** X12: doHelp sends nothing and writes nothing to standard output; with
    exactly one argument that is not a command name it exits with status 1,
    in every other case it returns nil. *)
Theorem doHelp_is_local (args : list string) (w : World) :
  requests (snd (doHelp args w)) = requests w
  /\ stdout (snd (doHelp args w)) = stdout w
  /\ (forall command, args = [command] -> ~ In command helpTopics ->
      doHelp args w
      = (Exit 1, Eprintln usageStr (Eprintln ("Unknown command " ++ command) w)))
  /\ ((forall command, args = [command] -> In command helpTopics) ->
      fst (doHelp args w) = Return None).
Proof. apply doHelp_outcome. Qed.

Lemma doHelp_is_local_witness :
  doHelp ["push"] world0
  = (Exit 1, Eprintln usageStr (Eprintln ("Unknown command " ++ "push") world0)).
Proof.
  apply (proj1 (proj2 (proj2 (doHelp_is_local ["push"] world0))) "push" eq_refl).
  cbn. intuition discriminate.
Defined.

(** *** Failures *)





(** *** Exits *)

Lemma decoded_returns {A : Type} `{Decodable A} (r : HTTPResult) (w : World)
    (k : A -> World -> Outcome * World) :
  (forall rp w1, exists err, fst (k rp w1) = Return err) ->
  exists err, fst (decoded r w k) = Return err.
Proof.
  intros Hk. unfold decoded. destruct r as [e | body]; [eexists; reflexivity |].
  destruct (Decode body zero) as [rp ?]. destruct (negb _); [eexists; reflexivity |].
  apply Hk.
Qed.

Lemma commandF_exit (env : Env) (flags : Flags) (c : Subcommand) (args : list string)
    (w : World) (code : Z) :
  fst (commandF env flags c args w) = Exit code ->
  requests (snd (commandF env flags c args w)) = requests w
  /\ stdout (snd (commandF env flags c args w)) = stdout w
  /\ stderr (snd (commandF env flags c args w)) <> stderr w
  /\ (code = 1 \/ code = 2)%Z.
Proof.
  assert (Hgrow : forall (l : list Diag) d, (l ++ [d])%list <> l).
  { intros l d E. apply (f_equal (@length Diag)) in E. rewrite length_app in E.
    cbn in E. lia. }
  assert (Hgrow2 : forall (l : list Diag) d d', ((l ++ [d]) ++ [d'])%list <> l).
  { intros l d d' E. apply (f_equal (@length Diag)) in E. rewrite !length_app in E.
    cbn in E. lia. }
  assert (Hgrow3 : forall (l : list Diag) d d' d'', (((l ++ [d]) ++ [d']) ++ [d''])%list <> l).
  { intros l d d' d'' E. apply (f_equal (@length Diag)) in E. rewrite !length_app in E.
    cbn in E. lia. }
  assert (Hret : forall r : Outcome * World,
             (exists err, fst r = Return err) -> fst r = Exit code -> False).
  { intros r [err E] E'. rewrite E in E'. discriminate. }
  destruct c; cbn [commandF].
  - intros Hx. destruct (doHelp_outcome args w) as [Hr [Ho _]].
    split; [exact Hr | split; [exact Ho |]].
    revert Hx. unfold doHelp. destruct args as [| command [| second more]];
      [discriminate | | discriminate].
    repeat match goal with
           | |- context [String.eqb command ?x] => destruct (String.eqb command x)
           end; try discriminate.
    cbn. intros Hx. injection Hx as <-. split; [apply Hgrow2 | left; reflexivity].
  - unfold doRecord. destruct args as [| mode rest]; [discriminate |].
    destruct (recordValues env flags mode) as [v | e]; [| discriminate].
    unfold Post. intros Hx. exfalso. revert Hx. apply Hret.
    apply decoded_returns. intros; eexists; reflexivity.
  - unfold doDefine. destruct (_ || _).
    + cbn. intros Hx. injection Hx as <-.
      repeat split; [apply Hgrow3 | right; reflexivity].
    + destruct (Open env _) as [f | e]; [| discriminate].
      unfold Post. intros Hx. exfalso. revert Hx. apply Hret.
      apply decoded_returns. intros; eexists; reflexivity.
  - unfold doReplay, Post. intros Hx. exfalso. revert Hx. apply Hret.
    apply decoded_returns. intros; eexists; reflexivity.
  - unfold doEnable. destruct args as [| name rest].
    + cbn. intros Hx. injection Hx as <-.
      repeat split; [apply Hgrow2 | right; reflexivity].
    + cbn [length Nat.ltb Nat.leb]. intros Hx. exfalso. revert Hx. apply Hret.
      destruct (enableLoop_sends env (name :: rest) w) as [n [err [Hn _]]].
      exists err. rewrite Hn. reflexivity.
  - unfold doDisable. destruct args as [| name rest].
    + cbn. intros Hx. injection Hx as <-.
      repeat split; [apply Hgrow2 | right; reflexivity].
    + cbn [length Nat.ltb Nat.leb]. unfold disableLoop, Post.
      intros Hx. exfalso. revert Hx. apply Hret.
      apply decoded_returns. intros; eexists; reflexivity.
  - unfold doDelete. destruct args as [| kind [| arg rest]].
    + cbn. intros Hx. injection Hx as <-.
      repeat split; [apply Hgrow2 | right; reflexivity].
    + cbn. intros Hx. injection Hx as <-.
      repeat split; [apply Hgrow2 | right; reflexivity].
    + cbn [length Nat.ltb Nat.leb].
      destruct (if kind =? "task" then _ else _) as [baseURL paramName].
      intros Hx. exfalso. revert Hx. apply Hret.
      destruct (deleteLoop_sends env baseURL paramName (arg :: rest)
                  (toStderr (Logged (fmt.SprintlnSlice (kind :: arg :: rest))) w))
        as [n [err Hn]].
      exists err. rewrite Hn. reflexivity.
  - unfold doList. destruct args as [| kind filter].
    + cbn. intros Hx. injection Hx as <-.
      repeat split; [apply Hgrow2 | right; reflexivity].
    + destruct (kind =? "tasks"); [| destruct (kind =? "recordings")];
        [| | discriminate]; unfold Get; intros Hx; exfalso; revert Hx; apply Hret;
        apply decoded_returns; intros; eexists; reflexivity.
  - unfold doLevel. destruct args as [| lvl rest].
    + cbn. intros Hx. injection Hx as <-.
      repeat split; [apply Hgrow2 | right; reflexivity].
    + unfold Post. intros Hx. exfalso. revert Hx. apply Hret.
      apply decoded_returns. intros; eexists; reflexivity.
  - discriminate.
Qed.

(** X14: a subcommand calls [os.Exit] only before it has sent a request or
    printed to standard output, only after writing to the diagnostic stream,
    and only with status 1 or 2. *)
Theorem exit_precedes_requests (env : Env) (flags : Flags) (c : Subcommand)
    (args : list string) (w : World) (code : Z)
    (Hexit : fst (commandF env flags c args w) = Exit code) :
  requests (snd (commandF env flags c args w)) = requests w
  /\ stdout (snd (commandF env flags c args w)) = stdout w
  /\ stderr (snd (commandF env flags c args w)) <> stderr w
  /\ (code = 1 \/ code = 2)%Z.
Proof. apply commandF_exit. exact Hexit. Qed.

Lemma exit_precedes_requests_witness :
  requests (snd (commandF (exampleEnv alwaysOK) exampleFlags cmd_delete ["task"] world0)) = []
  /\ stdout (snd (commandF (exampleEnv alwaysOK) exampleFlags cmd_delete ["task"] world0)) = ""
  /\ stderr (snd (commandF (exampleEnv alwaysOK) exampleFlags cmd_delete ["task"] world0)) <> []
  /\ (2 = 1 \/ 2 = 2)%Z.
Proof.
  apply (exit_precedes_requests (exampleEnv alwaysOK) exampleFlags cmd_delete ["task"]
           world0 2%Z).
  reflexivity.
Defined.

(** *** Methods and endpoints *)

Lemma prefix_front (a b : string) : String.prefix a (a ++ b) = true.
Proof.
  induction a as [| c a IH]; cbn.
  - destruct b; reflexivity.
  - destruct (ascii_dec c c) as [_ | N]; [exact IH | contradiction].
Qed.

Lemma extends_refl (P : Request -> Prop) (w w' : World) :
  requests w' = requests w -> extends P w w'.
Proof. intros E. exists []. rewrite E, app_nil_r. split; [reflexivity | constructor]. Qed.

Lemma extends_sent (P : Request -> Prop) (req : Request) (w w' : World) :
  P req -> extends P (sent req w) w' -> extends P w w'.
Proof.
  intros HP [l [E F]]. exists (req :: l). split; [| constructor; assumption].
  rewrite E. unfold sent. cbn [requests]. rewrite <- app_assoc. reflexivity.
Qed.

Lemma decoded_extends {A : Type} `{Decodable A} (P : Request -> Prop) (r : HTTPResult)
    (w : World) (k : A -> World -> Outcome * World) :
  (forall rp w1, extends P w1 (snd (k rp w1))) ->
  extends P w (snd (decoded r w k)).
Proof.
  intros Hk. unfold decoded. destruct r as [e | body]; [apply extends_refl; reflexivity |].
  destruct (Decode body zero) as [rp ?].
  destruct (negb _); [apply extends_refl; reflexivity | apply Hk].
Qed.

Lemma enableLoop_extends (env : Env) (names : list string) (w : World) :
  extends (wellAddressed cmd_enable) w (snd (enableLoop env names w)).
Proof.
  revert w. induction names as [| name rest IH]; intros w.
  - apply extends_refl. reflexivity.
  - rewrite enableLoop_cons. apply (extends_sent _ (enableRequest name)).
    + split; [reflexivity |]. eexists. split; [left; reflexivity | first [reflexivity | apply prefix_front]].
    + apply decoded_extends. intros _ w1. apply IH.
Qed.

Lemma deleteLoop_extends (env : Env) (baseURL paramName front : string)
    (ids : list string) (w : World) :
  In front (endpointsOf cmd_delete) ->
  (forall id, String.prefix front (deleteURL baseURL paramName id) = true) ->
  extends (wellAddressed cmd_delete) w (snd (deleteLoop env baseURL paramName ids w)).
Proof.
  intros Hin Hfront. revert w. induction ids as [| arg rest IH]; intros w.
  - apply extends_refl. reflexivity.
  - rewrite deleteLoop_cons.
    destruct (NewRequestError env _ _); [apply extends_refl; reflexivity |].
    apply (extends_sent _ (deleteRequest (deleteURL baseURL paramName arg))).
    + split; [reflexivity |]. exists front. split; [exact Hin | apply Hfront].
    + apply decoded_extends. intros _ w1. apply IH.
Qed.

Lemma commandF_extends (env : Env) (flags : Flags) (c : Subcommand)
    (args : list string) (w : World) :
  extends (wellAddressed c) w (snd (commandF env flags c args w)).
Proof.
  assert (Hone : forall (A : Type) (D : Decodable A) (req : Request)
                   (k : A -> World -> Outcome * World),
             wellAddressed c req ->
             (forall rp w1, requests (snd (k rp w1)) = requests w1) ->
             extends (wellAddressed c) w
               (snd (decoded (Do env (requests w) req) (sent req w) k))).
  { intros A D req k Hreq Hk. apply (extends_sent _ req); [exact Hreq |].
    apply decoded_extends. intros rp w1. apply extends_refl, Hk. }
  destruct c; cbn [commandF].
  - apply extends_refl. apply (doHelp_outcome args w).
  - unfold doRecord. destruct args as [| mode rest]; [apply extends_refl; reflexivity |].
    destruct (recordValues env flags mode) as [v | e]; [| apply extends_refl; reflexivity].
    unfold Post. apply Hone; [| reflexivity].
    split; [reflexivity |]. eexists. split; [left; reflexivity | first [reflexivity | apply prefix_front]].
  - unfold doDefine. destruct (_ || _); [apply extends_refl; reflexivity |].
    destruct (Open env _) as [f | e]; [| apply extends_refl; reflexivity].
    unfold Post. apply Hone; [| reflexivity].
    split; [reflexivity |]. eexists. split; [left; reflexivity | first [reflexivity | apply prefix_front]].
  - unfold doReplay, Post. apply Hone; [| reflexivity].
    split; [reflexivity |]. eexists. split; [left; reflexivity | first [reflexivity | apply prefix_front]].
  - unfold doEnable. destruct (_ <? _)%nat; [apply extends_refl; reflexivity |].
    apply enableLoop_extends.
  - unfold doDisable. destruct (_ <? _)%nat; [apply extends_refl; reflexivity |].
    destruct args as [| name rest]; [apply extends_refl; reflexivity |].
    unfold disableLoop, Post. apply Hone; [| reflexivity].
    split; [reflexivity |]. eexists. split; [left; reflexivity | first [reflexivity | apply prefix_front]].
  - unfold doDelete. destruct (_ <? _)%nat; [apply extends_refl; reflexivity |].
    destruct args as [| kind ids]; [apply extends_refl; reflexivity |].
    destruct (kind =? "task"); [| destruct (kind =? "recording")].
    + destruct (deleteLoop_extends env "http://localhost:9092/task" "name"
                  "http://localhost:9092/task" ids
                  (toStderr (Logged (fmt.SprintlnSlice (kind :: ids))) w))
        as [l [E F]]; [left; reflexivity | intros id; first [reflexivity | apply prefix_front] |].
      exists l. split; [exact E | exact F].
    + destruct (deleteLoop_extends env "http://localhost:9092/recording" "rid"
                  "http://localhost:9092/recording" ids
                  (toStderr (Logged (fmt.SprintlnSlice (kind :: ids))) w))
        as [l [E F]];
        [right; left; reflexivity | intros id; first [reflexivity | apply prefix_front] |].
      exists l. split; [exact E | exact F].
    + destruct (deleteLoop_extends env "" "" "=" ids
                  (toStderr (Logged (fmt.SprintlnSlice (kind :: ids))) w))
        as [l [E F]];
        [right; right; left; reflexivity
        | intros id; exact (prefix_front "=" (url.QueryEscape id)) |].
      exists l. split; [exact E | exact F].
  - unfold doList. destruct args as [| kind filter]; [apply extends_refl; reflexivity |].
    destruct (kind =? "tasks"); [| destruct (kind =? "recordings")].
    + unfold Get. apply Hone.
      * split; [reflexivity |]. eexists. split; [left; reflexivity | first [reflexivity | apply prefix_front]].
      * intros rp w1. cbn [snd]. rewrite printRows_requests. reflexivity.
    + unfold Get. apply Hone.
      * split; [reflexivity |]. eexists. split; [right; left; reflexivity | first [reflexivity | apply prefix_front]].
      * intros rp w1. cbn [snd]. rewrite printRows_requests. reflexivity.
    + apply extends_refl. reflexivity.
  - unfold doLevel. destruct args as [| lvl rest]; [apply extends_refl; reflexivity |].
    unfold Post. apply Hone; [| reflexivity].
    split; [reflexivity |]. eexists. split; [left; reflexivity | first [reflexivity | apply prefix_front]].
  - apply extends_refl. reflexivity.
Qed.

(** X15: a subcommand only adds requests, and every request it adds has the
    method and the endpoint of that subcommand: POST for record, define,
    replay, enable, disable and level, GET for list, DELETE for delete, to
    the fixed base address; help and version add none. *)
Theorem requests_follow_the_endpoint_table (env : Env) (flags : Flags) (c : Subcommand)
    (args : list string) (w : World) :
  exists added : list Request,
    requests (snd (commandF env flags c args w)) = (requests w ++ added)%list
    /\ Forall (wellAddressed c) added
    /\ (c = cmd_help \/ c = cmd_version -> added = []).
Proof.
  destruct (commandF_extends env flags c args w) as [l [E F]].
  exists l. split; [exact E | split; [exact F |]].
  intros Hc. destruct l as [| req l]; [reflexivity |].
  inversion F as [| ? ? [_ [front [Hin _]]] _]; subst.
  destruct Hc as [-> | ->]; destruct Hin.
Qed.

(** *** The table printed by list *)

Lemma RuneCount_app (a b : string) :
  fmt.RuneCount (a ++ b) = (fmt.RuneCount a + fmt.RuneCount b)%nat.
Proof.
  induction a as [| c a IH]; [reflexivity |]. cbn.
  destruct (fmt.isContinuation c); rewrite IH; reflexivity.
Qed.

Lemma RuneCount_spaces (n : nat) : fmt.RuneCount (fmt.spaces n) = n.
Proof. induction n as [| n IH]; [reflexivity |]. cbn. rewrite IH. reflexivity. Qed.

Lemma RuneCount_padRight (width : nat) (s : string) :
  fmt.RuneCount (fmt.padRight width s) = Nat.max width (fmt.RuneCount s).
Proof. unfold fmt.padRight. rewrite RuneCount_app, RuneCount_spaces. lia. Qed.

(** X16: the rows of [list tasks] line up with the header: for a task whose
    name has at most 30 characters and whose type prints with at most 10, the
    type starts in column 30, the enabled flag in column 40, and the row is as
    wide as the header line. *)
Theorem task_rows_align_with_header (env : Env) (t : TaskEntry)
    (Hname : (fmt.RuneCount (Name t) <= 30)%nat)
    (Htype : (fmt.RuneCount (TaskTypeString env (TType t)) <= 10)%nat) :
  taskRow env t
  = fmt.padRight 30 (Name t) ++ fmt.padRight 10 (TaskTypeString env (TType t))
      ++ fmt.padRight 10 (fmt.Bool (Enabled t)) ++ nl
  /\ fmt.RuneCount (fmt.padRight 30 (Name t)) = 30%nat
  /\ fmt.RuneCount (fmt.padRight 10 (TaskTypeString env (TType t))) = 10%nat
  /\ fmt.RuneCount (taskRow env t) = fmt.RuneCount (taskLine "Name" "Type" "Enabled").
Proof.
  repeat split.
  - rewrite RuneCount_padRight. lia.
  - rewrite RuneCount_padRight. lia.
  - unfold taskRow, taskLine at 1. rewrite !RuneCount_app, !RuneCount_padRight.
    assert (Hb : (fmt.RuneCount (fmt.Bool (Enabled t)) <= 10)%nat)
      by (destruct (Enabled t); cbn; lia).
    change (fmt.RuneCount (taskLine "Name" "Type" "Enabled")) with 51%nat.
    change (fmt.RuneCount nl) with 1%nat. lia.
Qed.

Lemma task_rows_align_with_header_witness :
  fmt.RuneCount (taskRow (exampleEnv alwaysOK)
                   {| Name := "cpu_idle"; TType := streamer; Enabled := true |})
  = fmt.RuneCount (taskLine "Name" "Type" "Enabled").
Proof.
  apply (task_rows_align_with_header (exampleEnv alwaysOK)
           {| Name := "cpu_idle"; TType := streamer; Enabled := true |}); cbn; lia.
Defined.

(** *** The exit status of main *)

Lemma commandF_panic (env : Env) (flags : Flags) (c : Subcommand) (args : list string)
    (w : World) :
  fst (commandF env flags c args w) = Panic -> c = cmd_record /\ args = [].
Proof.
  assert (Hret : forall r : Outcome * World,
             (exists err, fst r = Return err) -> fst r = Panic -> False).
  { intros r [err E] E'. rewrite E in E'. discriminate. }
  destruct c; cbn [commandF].
  - unfold doHelp. destruct args as [| command [| second more]]; try discriminate.
    repeat match goal with
           | |- context [String.eqb command ?x] => destruct (String.eqb command x)
           end; discriminate.
  - unfold doRecord. destruct args as [| mode rest]; [split; reflexivity |].
    destruct (recordValues env flags mode) as [v | e]; [| discriminate].
    unfold Post. intros Hx. exfalso. revert Hx. apply Hret.
    apply decoded_returns. intros; eexists; reflexivity.
  - unfold doDefine. destruct (_ || _); [discriminate |].
    destruct (Open env _) as [f | e]; [| discriminate].
    unfold Post. intros Hx. exfalso. revert Hx. apply Hret.
    apply decoded_returns. intros; eexists; reflexivity.
  - unfold doReplay, Post. intros Hx. exfalso. revert Hx. apply Hret.
    apply decoded_returns. intros; eexists; reflexivity.
  - unfold doEnable. destruct args as [| name rest]; [discriminate |].
    cbn [length Nat.ltb Nat.leb]. intros Hx. exfalso. revert Hx. apply Hret.
    destruct (enableLoop_sends env (name :: rest) w) as [n [err [Hn _]]].
    exists err. rewrite Hn. reflexivity.
  - unfold doDisable. destruct args as [| name rest]; [discriminate |].
    cbn [length Nat.ltb Nat.leb]. unfold disableLoop, Post.
    intros Hx. exfalso. revert Hx. apply Hret.
    apply decoded_returns. intros; eexists; reflexivity.
  - unfold doDelete. destruct args as [| kind [| arg rest]]; try discriminate.
    cbn [length Nat.ltb Nat.leb].
    destruct (if kind =? "task" then _ else _) as [baseURL paramName].
    intros Hx. exfalso. revert Hx. apply Hret.
    destruct (deleteLoop_sends env baseURL paramName (arg :: rest)
                (toStderr (Logged (fmt.SprintlnSlice (kind :: arg :: rest))) w))
      as [n [err Hn]].
    exists err. rewrite Hn. reflexivity.
  - unfold doList. destruct args as [| kind filter]; [discriminate |].
    destruct (kind =? "tasks"); [| destruct (kind =? "recordings")];
      [| | discriminate]; unfold Get; intros Hx; exfalso; revert Hx; apply Hret;
      apply decoded_returns; intros; eexists; reflexivity.
  - unfold doLevel. destruct args as [| lvl rest]; [discriminate |].
    unfold Post. intros Hx. exfalso. revert Hx. apply Hret.
    apply decoded_returns. intros; eexists; reflexivity.
  - discriminate.
Qed.

Lemma finish_commandF (env : Env) (flags : Flags) (c : Subcommand) (args : list string)
    (w : World) :
  (c = cmd_record -> args <> []) ->
  In (fst (finish (commandF env flags c args w))) [0; 1; 2; 3]%Z
  /\ (fst (finish (commandF env flags c args w)) = 3%Z ->
      exists err,
        fst (commandF env flags c args w) = Return (Some err)
        /\ stderr (snd (finish (commandF env flags c args w)))
           = (stderr (snd (commandF env flags c args w)) ++ [Failure err])%list)
  /\ (fst (finish (commandF env flags c args w)) = 1%Z
      \/ fst (finish (commandF env flags c args w)) = 2%Z ->
      requests (snd (finish (commandF env flags c args w))) = requests w
      /\ stdout (snd (finish (commandF env flags c args w))) = stdout w).
Proof.
  intros Hargs.
  pose proof (commandF_exit env flags c args w) as Hexit.
  pose proof (commandF_panic env flags c args w) as Hpanic.
  destruct (commandF env flags c args w) as [[[err |] | code |] w']; cbn [fst snd finish] in *.
  - split; [cbn; tauto |]. split; [intros _; exists err; split; reflexivity |].
    intros [E | E]; discriminate E.
  - split; [cbn; tauto |]. split; [discriminate |]. intros [E | E]; discriminate E.
  - destruct (Hexit code eq_refl) as [Hr [Ho [_ Hc]]].
    split; [destruct Hc as [-> | ->]; cbn; tauto |].
    split; [intros ->; destruct Hc; discriminate |].
    intros _. split; assumption.
  - destruct (Hpanic eq_refl) as [-> ->]. elim (Hargs eq_refl). reflexivity.
Qed.




(** X18: a first argument that is not one of the ten commands, such as the
    [push] the usage text lists, makes [main] print that the command is
    unknown and the usage text, and end with status 1; nothing is sent. *)
Theorem main_unknown_command (env : Env) (flags : Flags) (command : string)
    (args : list string) (w : World)
    (Hunknown : ~ In command helpTopics) :
  main env flags (command :: args) w
  = (1%Z, Eprintln usageStr (Eprintln ("Unknown command " ++ command) w)).
Proof.
  unfold main.
  repeat match goal with
         | |- context [String.eqb command ?x] =>
             destruct (String.eqb_spec command x) as [-> | ?];
             [elim Hunknown; cbn; tauto |]
         end.
  reflexivity.
Qed.

Lemma main_unknown_command_witness :
  main (exampleEnv alwaysOK) exampleFlags ["push"; "cpu_idle"] world0
  = (1%Z, Eprintln usageStr (Eprintln ("Unknown command " ++ "push") world0)).
Proof.
  apply (main_unknown_command (exampleEnv alwaysOK) exampleFlags "push" ["cpu_idle"] world0).
  cbn. intuition discriminate.
Defined.

Lemma doEnable_sends_prefix_witness :
  exists (n : nat) (err : option error),
    doEnable (exampleEnv (rejecting "b" "boom")) ["a"; "b"; "c"] world0
    = (Return err,
       {| requests := map enableRequest (firstn (S n) ["a"; "b"; "c"]);
          stdout := ""; stderr := [] |})
    /\ (err = None -> firstn (S n) ["a"; "b"; "c"] = ["a"; "b"; "c"]).
Proof.
  exact (doEnable_sends_prefix (exampleEnv (rejecting "b" "boom")) "a" ["b"; "c"] world0).
Defined.

Lemma requests_follow_the_endpoint_table_witness :
  exists added : list Request,
    requests (snd (commandF (exampleEnv alwaysOK) exampleFlags cmd_version [] world0))
    = added
    /\ Forall (wellAddressed cmd_version) added
    /\ (cmd_version = cmd_help \/ cmd_version = cmd_version -> added = []).
Proof.
  exact (requests_follow_the_endpoint_table (exampleEnv alwaysOK) exampleFlags
           cmd_version [] world0).
Defined.


Example main_level_rejected :
  main (exampleEnv (answering (errorDocument "boom"))) exampleFlags ["level"; "debug"] world0
  = (3%Z,
     {| requests := [levelRequest "debug"]; stdout := "";
        stderr := [Failure (errors_New "boom")] |}).
Proof. reflexivity. Qed.

Example getScheme_http : url.getScheme "http://localhost:9092/taskname=cpu" = "http".
Proof. reflexivity. Qed.

Example getScheme_none : url.getScheme "=cpu" = "".
Proof. reflexivity. Qed.
